(** * Neo4j to LightRAG converter: a shallow embedding and its properties

    The development follows [neo4j_to_lightrag_converter.py].  It has four
    layers:

    - [Cypher]: the property-graph data model of the database and the
      Cypher functions that the two query texts of the converter use;
    - [Py]: the Python values the driver hands back (rows are dictionaries),
      dictionary lookup and [str.split];
    - [Converter]: the class [Neo4jToLightRAGConverter] and [main], written
      in a state-and-exception monad over the observable world (log, standard
      output, driver and session handles);
    - the properties of the conversion.

    Strings are [Stdlib.Strings.String.string]; a character stands for a code
    point below 256. *)

From Stdlib Require Import List String Ascii ZArith Bool Arith Lia SpecFloat.
From Stdlib Require Import DecimalString.
Import ListNotations.
Local Open Scope string_scope.
Local Open Scope list_scope.

Set Implicit Arguments.

(** ** Values

    One type serves for the values stored in the database, the values a
    Cypher expression evaluates to and the Python objects that
    [record.data()] puts into a row: Cypher [null] is Python [None], a Cypher
    map is a Python [dict], and so on.  A float is an IEEE 754 binary64
    number in the Standard Library's specification format. *)

Unset Elimination Schemes.
Inductive value : Type :=
| VNull : value
| VBool : bool -> value
| VInt : Z -> value
| VFloat : spec_float -> value
| VStr : string -> value
| VList : list value -> value
| VMap : list (string * value) -> value.
Set Elimination Schemes.

(** A Python [dict] with string keys, in insertion order. *)
Definition dict (A : Type) : Type := list (string * A).

(** A row of a query result after [record.data()]. *)
Definition row : Type := dict value.

(** The binary64 number [1.0]: mantissa [2^52], exponent [-52]. *)
Definition float_1_0 : spec_float := S754_finite false 4503599627370496 (-52).

Module Cypher.

(** *** The property graph *)

Record Node : Type := mkNode {
  node_element_id : string;
  node_labels : list string;
  node_properties : dict value
}.

Record Relationship : Type := mkRelationship {
  rel_element_id : string;
  rel_type : string;
  rel_start : string;          (* element id of the start node *)
  rel_end : string;            (* element id of the end node *)
  rel_properties : dict value
}.

Record Graph : Type := mkGraph {
  graph_nodes : list Node;
  graph_relationships : list Relationship
}.

(** *** Cypher functions used by the two queries *)

Fixpoint lookup_property (props : dict value) (k : string) : value :=
  match props with
  | [] => VNull
  | (k', v) :: rest => if String.eqb k' k then v else lookup_property rest k
  end.

(** [n.key]: the property, [null] when the node has none of that name. *)
Definition prop (props : dict value) (k : string) : value :=
  lookup_property props k.

Definition is_null (v : value) : bool :=
  match v with VNull => true | _ => false end.

(** [coalesce(e1, e2, ...)]: the first argument that is not [null]. *)
Fixpoint coalesce (vs : list value) : value :=
  match vs with
  | [] => VNull
  | v :: rest => if is_null v then coalesce rest else v
  end.

(** [list[i]]: [null] when the index is out of range. *)
Definition index (l : list value) (i : nat) : value := nth i l VNull.

Definition elementId_node (n : Node) : value := VStr (node_element_id n).
Definition elementId_rel (r : Relationship) : value := VStr (rel_element_id r).
Definition labels (n : Node) : list value := map VStr (node_labels n).
Definition properties_node (n : Node) : value := VMap (node_properties n).
Definition properties_rel (r : Relationship) : value := VMap (rel_properties r).
Definition type (r : Relationship) : value := VStr (rel_type r).

(** *** Pattern matching *)

(** [MATCH (n)]: one binding per node. *)
Definition match_nodes (g : Graph) : list Node := graph_nodes g.

Definition nodes_with_id (g : Graph) (id : string) : list Node :=
  filter (fun n => String.eqb (node_element_id n) id) (graph_nodes g).

(** [MATCH (src)-[r]->(tgt)]: one binding per relationship [r] and pair of
    nodes [src], [tgt] of the graph that [r] starts and ends at. *)
Definition match_relationships (g : Graph)
  : list (Node * Relationship * Node) :=
  flat_map
    (fun r =>
       flat_map
         (fun src => map (fun tgt => (src, r, tgt)) (nodes_with_id g (rel_end r)))
         (nodes_with_id g (rel_start r)))
    (graph_relationships g).

End Cypher.

(** ** Python: exceptions, dictionaries, [str.split] *)

Module Py.

(** The exception classes that matter to the [except] clauses of the
    converter.  [KeyboardInterrupt] and [CancelledError] derive from
    [BaseException] only; every other class derives from [Exception].
    [OtherException] stands for any further subclass of [Exception] the
    driver raises ([ServiceUnavailable], [ClientError], ...). *)
Inductive exc_class : Type :=
| AuthError
| CypherSyntaxError
| OtherException
| KeyError
| AttributeError
| IndexError
| KeyboardInterrupt
| CancelledError.

Record exn : Type := mkExn {
  exn_class : exc_class;
  exn_message : string       (* what [f"{e}"] prints *)
}.

Definition isinstance_Exception (e : exn) : bool :=
  match exn_class e with
  | KeyboardInterrupt | CancelledError => false
  | _ => true
  end.

Definition isinstance_AuthError (e : exn) : bool :=
  match exn_class e with AuthError => true | _ => false end.

Definition isinstance_CypherSyntaxError (e : exn) : bool :=
  match exn_class e with CypherSyntaxError => true | _ => false end.

Definition isinstance_KeyboardInterrupt (e : exn) : bool :=
  match exn_class e with KeyboardInterrupt => true | _ => false end.

(** The outcome of evaluating an expression or running a statement. *)
Inductive result (A : Type) : Type :=
| Return : A -> result A
| Raise : exn -> result A.
Arguments Raise {A} _.

Definition bind_result {A B} (r : result A) (k : A -> result B) : result B :=
  match r with
  | Return a => k a
  | Raise e => Raise e
  end.

(** A list comprehension whose element expression can raise. *)
Fixpoint comprehension {A B} (f : A -> result B) (xs : list A)
  : result (list B) :=
  match xs with
  | [] => Return []
  | x :: rest =>
      bind_result (f x) (fun y =>
      bind_result (comprehension f rest) (fun ys =>
      Return (y :: ys)))
  end.

(** *** Dictionaries *)

Fixpoint get {A} (d : dict A) (k : string) : option A :=
  match d with
  | [] => None
  | (k', v) :: rest => if String.eqb k' k then Some v else get rest k
  end.

(** [d[k]]; the exception carries the key that is missing (Python prints
    it quoted). *)
Definition getitem {A} (d : dict A) (k : string) : result A :=
  match get d k with
  | Some v => Return v
  | None => Raise (mkExn KeyError k)
  end.

(** [d.get(k, default)] *)
Definition get_default {A} (d : dict A) (k : string) (default : A) : A :=
  match get d k with
  | Some v => v
  | None => default
  end.

Definition keys {A} (d : dict A) : list string := map fst d.

(** *** [str.split()] with no argument *)

(** [str.isspace] on one character, for code points below 256: the ASCII
    whitespace table of CPython (9 to 13, 28 to 31, 32) and the two Latin-1
    characters with the Unicode whitespace property (133, 160). *)
Definition isspace (c : ascii) : bool :=
  let n := N_of_ascii c in
  ((9 <=? n) && (n <=? 13) || (28 <=? n) && (n <=? 31) || (n =? 32)
   || (n =? 133) || (n =? 160))%N.

Definition is_empty (s : string) : bool :=
  match s with EmptyString => true | String _ _ => false end.

(** One left-to-right scan.  [word] is the run of non-whitespace characters
    read since the last whitespace; it is empty while the scan is skipping
    whitespace. *)
Fixpoint split_scan (word : string) (s : string) : list string :=
  match s with
  | EmptyString => if is_empty word then [] else [word]
  | String c rest =>
      if isspace c then
        if is_empty word then split_scan EmptyString rest
        else word :: split_scan EmptyString rest
      else split_scan (word ++ String c EmptyString) rest
  end.

Definition split (s : string) : list string := split_scan EmptyString s.

(** [v.split()] on an arbitrary object: only [str] has the method among the
    values a row can hold here.  The message leaves out the name of the
    type, which Python prints in front. *)
Definition split_method (v : value) : result (list string) :=
  match v with
  | VStr s => Return (split s)
  | _ => Raise (mkExn AttributeError "object has no attribute 'split'")
  end.

Definition len {A} (l : list A) : value := VInt (Z.of_nat (List.length l)).

End Py.

(** ** The converter *)

Module Converter.

Import Py.

(** *** The world the program runs in *)

(** A driver object of the [neo4j] package. *)
Record Driver : Type := mkDriver {
  driver_uri : string;
  driver_auth : string * string
}.

(** The instance attributes of [Neo4jToLightRAGConverter]. *)
Record Neo4jToLightRAGConverter : Type := mkConverter {
  uri : string;
  user : string;
  password : string;
  database : string;
  _driver : option Driver
}.

Inductive level : Type := INFO | ERROR.

Record World : Type := mkWorld {
  self : Neo4jToLightRAGConverter;   (* the one converter object *)
  log : list (level * string);       (* records handed to [logger] *)
  stdout : list string;              (* lines written by [print] *)
  queries_sent : nat;                (* queries that reached the server *)
  sessions_opened : nat;
  sessions_closed : nat;
  drivers_created : nat;
  drivers_closed : nat
}.

Definition set_self (f : Neo4jToLightRAGConverter -> Neo4jToLightRAGConverter)
           (w : World) : World :=
  mkWorld (f (self w)) (log w) (stdout w) (queries_sent w)
          (sessions_opened w) (sessions_closed w)
          (drivers_created w) (drivers_closed w).

Definition add_log (l : level) (msg : string) (w : World) : World :=
  mkWorld (self w) (log w ++ [(l, msg)]) (stdout w) (queries_sent w)
          (sessions_opened w) (sessions_closed w)
          (drivers_created w) (drivers_closed w).

Definition add_stdout (line : string) (w : World) : World :=
  mkWorld (self w) (log w) (stdout w ++ [line]) (queries_sent w)
          (sessions_opened w) (sessions_closed w)
          (drivers_created w) (drivers_closed w).

Definition count_query (w : World) : World :=
  mkWorld (self w) (log w) (stdout w) (S (queries_sent w))
          (sessions_opened w) (sessions_closed w)
          (drivers_created w) (drivers_closed w).

Definition count_session_opened (w : World) : World :=
  mkWorld (self w) (log w) (stdout w) (queries_sent w)
          (S (sessions_opened w)) (sessions_closed w)
          (drivers_created w) (drivers_closed w).

Definition count_session_closed (w : World) : World :=
  mkWorld (self w) (log w) (stdout w) (queries_sent w)
          (sessions_opened w) (S (sessions_closed w))
          (drivers_created w) (drivers_closed w).

Definition count_driver_created (w : World) : World :=
  mkWorld (self w) (log w) (stdout w) (queries_sent w)
          (sessions_opened w) (sessions_closed w)
          (S (drivers_created w)) (drivers_closed w).

Definition count_driver_closed (w : World) : World :=
  mkWorld (self w) (log w) (stdout w) (queries_sent w)
          (sessions_opened w) (sessions_closed w)
          (drivers_created w) (S (drivers_closed w)).

(** *** The monad: state passing with exceptions

    A statement takes the world and yields a result, normal or raised, and
    the world it leaves behind; the world survives an exception. *)

Definition M (A : Type) : Type := World -> result A * World.

Definition ret {A} (a : A) : M A := fun w => (Return a, w).

Definition raise {A} (e : exn) : M A := fun w => (Raise e, w).

Definition bind {A B} (m : M A) (k : A -> M B) : M B :=
  fun w =>
    match m w with
    | (Return a, w') => k a w'
    | (Raise e, w') => (Raise e, w')
    end.

Definition lift {A} (r : result A) : M A := fun w => (r, w).

Definition modify (f : World -> World) : M unit := fun w => (Return tt, f w).

Definition gets {A} (f : World -> A) : M A := fun w => (Return (f w), w).

Declare Scope py_scope.
Delimit Scope py_scope with py.
Notation "x <- m ;; k" := (bind m (fun x => k))
  (at level 61, m at next level, right associativity) : py_scope.
Notation "m ;; k" := (bind m (fun _ => k))
  (at level 61, right associativity) : py_scope.
Local Open Scope py_scope.

(** [try: body  except C1: h1  except C2 as e: h2 ...]: the first clause
    whose class test accepts the exception handles it; with none, the
    exception goes on. *)
Fixpoint dispatch {A} (clauses : list ((exn -> bool) * (exn -> M A)))
         (e : exn) : M A :=
  match clauses with
  | [] => raise e
  | (test, handler) :: rest =>
      if test e then handler e else dispatch rest e
  end.

Definition try_except {A} (body : M A)
           (clauses : list ((exn -> bool) * (exn -> M A))) : M A :=
  fun w =>
    match body w with
    | (Return a, w') => (Return a, w')
    | (Raise e, w') => dispatch clauses e w'
    end.

(** [async with <enter> as x: body], for an exit method that returns a
    false value (so it never swallows the exception of the body).  The exit
    method runs on every way out of the body, and not at all when the
    enter method raises. *)
Definition async_with {A B} (aenter : M A) (aexit : option exn -> M unit)
           (body : A -> M B) : M B :=
  fun w =>
    match aenter w with
    | (Raise e, w1) => (Raise e, w1)
    | (Return a, w1) =>
        match body a w1 with
        | (Return b, w2) =>
            match aexit None w2 with
            | (Return _, w3) => (Return b, w3)
            | (Raise e', w3) => (Raise e', w3)
            end
        | (Raise e, w2) =>
            match aexit (Some e) w2 with
            | (Return _, w3) => (Raise e, w3)
            | (Raise e', w3) => (Raise e', w3)
            end
        end
    end.

Definition logger_info (msg : string) : M unit := modify (add_log INFO msg).
Definition logger_error (msg : string) : M unit := modify (add_log ERROR msg).
Definition print (line : string) : M unit := modify (add_stdout line).

(** The line feed of ["\n"]. *)
Definition nl : string := String (ascii_of_nat 10) EmptyString.

(** *** The database server and the driver library

    What the program cannot decide itself: whether creating the driver and
    verifying the connection raise, the graph the database holds, and, for
    the query that reaches the server as number [k] (from 0), whether the
    server answers it or the call raises.  The program only reads; the
    graph is the same for every query of a run. *)
Record Server : Type := mkServer {
  driver_outcome : option exn;
  verify_outcome : option exn;
  graph : Cypher.Graph;
  query_fault : nat -> option exn
}.

(** A query text, by what it evaluates to on a graph: the rows in result
    order, each a list of columns in [RETURN] order. *)
Definition Query : Type := Cypher.Graph -> list row.

Section Program.

(** [apoc.convert.toJson]: the JSON text of a value (a procedure of the
    APOC library, installed in the database). *)
Variable toJson : value -> string.

(** [str(x)] of Python for an object [x] that is not a [str]. *)
Variable str_of_object : value -> string.

(** [os.environ] *)
Variable environ : dict string.

Variable server : Server.

(** [f"{x}"] *)
Definition format (x : value) : string :=
  match x with
  | VStr s => s
  | _ => str_of_object x
  end.

(** **** Configuration *)

Definition NEO4J_URI : string :=
  get_default environ "NEO4J_URI" "bolt://localhost:7687".
Definition NEO4J_USERNAME : string :=
  get_default environ "NEO4J_USERNAME" "neo4j".
Definition NEO4J_PASSWORD : string :=
  get_default environ "NEO4J_PASSWORD" "password".
Definition NEO4J_DATABASE : string :=
  get_default environ "NEO4J_DATABASE" "neo4j".

(** **** Calls into the driver library *)

(** [AsyncGraphDatabase.driver(uri, auth=(user, password))] *)
Definition AsyncGraphDatabase_driver (u : string) (auth : string * string)
  : M Driver :=
  match driver_outcome server with
  | Some e => raise e
  | None => modify count_driver_created ;; ret (mkDriver u auth)
  end.

(** [driver.verify_connectivity()] *)
Definition verify_connectivity (d : Driver) : M unit :=
  match verify_outcome server with
  | Some e => raise e
  | None => ret tt
  end.

(** [driver.close()] *)
Definition driver_close (d : Driver) : M unit := modify count_driver_closed.

(** [self._driver.session(database=...)] and entering it; [self._driver]
    may be [None]. *)
Definition driver_session (d : option Driver) (db : string) : M Driver :=
  match d with
  | None =>
      raise (mkExn AttributeError
                   "'NoneType' object has no attribute 'session'")
  | Some drv => modify count_session_opened ;; ret drv
  end.

Definition session_exit (exc : option exn) : M unit :=
  modify count_session_closed.

(** [await session.run(query, params)] followed by [await result.list()]:
    the query goes to the server, which raises or evaluates it.  Neither
    query text mentions a parameter. *)
Definition session_run (session : Driver) (query : Query)
           (params : dict value) : M (list row) :=
  k <- gets queries_sent ;;
  modify count_query ;;
  match query_fault server k with
  | Some e => raise e
  | None => ret (query (graph server))
  end.

(** [record.data()]: the record as a dictionary.  The columns of both
    queries hold strings, numbers, lists and maps, which pass as they
    are. *)
Definition data (record : row) : row := record.

(** [params or {}] *)
Definition or_empty (params : option (dict value)) : dict value :=
  match params with
  | Some ((_ :: _) as p) => p
  | _ => []
  end.

(** **** The class *)

Definition __init__ (u usr pw db : string) : M unit :=
  modify (set_self (fun _ => mkConverter u usr pw db None)).

Definition set_driver (d : option Driver) (c : Neo4jToLightRAGConverter)
  : Neo4jToLightRAGConverter :=
  mkConverter (uri c) (user c) (password c) (database c) d.

(** Returns [self]; there is one converter object, held in the world. *)
Definition __aenter__ : M unit :=
  try_except
    (u <- gets (fun w => uri (self w)) ;;
     usr <- gets (fun w => user (self w)) ;;
     pw <- gets (fun w => password (self w)) ;;
     d <- AsyncGraphDatabase_driver u (usr, pw) ;;
     modify (set_self (set_driver (Some d))) ;;
     verify_connectivity d ;;
     logger_info ("Successfully connected to Neo4j at " ++ u))
    [ (isinstance_AuthError,
       fun e =>
         logger_error
           "Authentication failed for Neo4j. Please check your credentials." ;;
         raise e);
      (isinstance_Exception,
       fun e =>
         logger_error ("Failed to connect to Neo4j: " ++ exn_message e) ;;
         raise e) ] ;;
  ret tt.

Definition __aexit__ (exc : option exn) : M unit :=
  d <- gets (fun w => _driver (self w)) ;;
  match d with
  | Some drv =>
      driver_close drv ;;
      logger_info "Neo4j connection closed."
  | None => ret tt
  end.

Definition _run_query (query : Query) (params : option (dict value))
  : M (list row) :=
  try_except
    (d <- gets (fun w => _driver (self w)) ;;
     db <- gets (fun w => database (self w)) ;;
     async_with (driver_session d db) session_exit
       (fun session =>
          result <- session_run session query (or_empty params) ;;
          ret (map data result)))
    [ (isinstance_CypherSyntaxError,
       fun e =>
         logger_error ("Cypher query syntax error: " ++ exn_message e) ;;
         raise e);
      (isinstance_Exception,
       fun e =>
         logger_error
           ("An error occurred while running the query: " ++ exn_message e) ;;
         raise e) ].

(** [apoc.convert.toJson(e)] as a Cypher expression *)
Definition apoc_convert_toJson (v : value) : value := VStr (toJson v).

Definition node_query : Query := fun g =>
  map
    (fun n =>
       [ ("source_id", Cypher.elementId_node n);
         ("entity_name",
          Cypher.coalesce
            [ Cypher.prop (Cypher.node_properties n) "name";
              Cypher.prop (Cypher.node_properties n) "title";
              Cypher.elementId_node n ]);
         ("entity_type", Cypher.index (Cypher.labels n) 0);
         ("description", apoc_convert_toJson (Cypher.properties_node n));
         ("properties", Cypher.properties_node n) ])
    (Cypher.match_nodes g).

Definition relationship_query : Query := fun g =>
  map
    (fun b : Cypher.Node * Cypher.Relationship * Cypher.Node =>
       let '(src, r, tgt) := b in
       [ ("src_id",
          Cypher.coalesce
            [ Cypher.prop (Cypher.node_properties src) "name";
              Cypher.prop (Cypher.node_properties src) "title";
              Cypher.elementId_node src ]);
         ("tgt_id",
          Cypher.coalesce
            [ Cypher.prop (Cypher.node_properties tgt) "name";
              Cypher.prop (Cypher.node_properties tgt) "title";
              Cypher.elementId_node tgt ]);
         ("description", Cypher.type r);
         ("keywords", apoc_convert_toJson (Cypher.properties_rel r));
         ("weight", VFloat float_1_0);
         ("source_id", Cypher.elementId_rel r) ])
    (Cypher.match_relationships g).

(** The element expression of the [chunks] comprehension. *)
Definition chunk_of (node : row) : result row :=
  bind_result (getitem node "source_id") (fun id1 =>
  bind_result (getitem node "description") (fun content =>
  bind_result (getitem node "source_id") (fun id2 =>
  bind_result (getitem node "description") (fun d =>
  bind_result (split_method d) (fun words =>
  Return
    [ ("chunk_id", VStr ("chunk_" ++ format id1));
      ("content", content);
      ("source_id", id2);
      ("tokens", len words);
      ("chunk_order_index", VInt 0) ]))))).

Definition convert_to_lightrag_format : M (dict (list row)) :=
  logger_info "Starting conversion from Neo4j to LightRAG format..." ;;
  logger_info "Fetching nodes from Neo4j..." ;;
  nodes_data <- _run_query node_query None ;;
  logger_info ("Found " ++ format (len nodes_data) ++ " nodes.") ;;
  logger_info "Fetching relationships from Neo4j..." ;;
  relationships_data <- _run_query relationship_query None ;;
  logger_info
    ("Found " ++ format (len relationships_data) ++ " relationships.") ;;
  chunks <- lift (comprehension chunk_of nodes_data) ;;
  let custom_kg :=
    [ ("entities", nodes_data);
      ("relations", relationships_data);
      ("chunks", chunks) ] in
  logger_info "Successfully converted data to LightRAG format." ;;
  ret custom_kg.

(** [l[0]] *)
Definition first_item (l : list row) : result row :=
  match l with
  | x :: _ => Return x
  | [] => Raise (mkExn IndexError "list index out of range")
  end.

(** The block under [async with] in [main]. *)
Definition main_block (converter : unit) : M unit :=
  lightrag_formatted_data <- convert_to_lightrag_format ;;
  print (nl ++ "--- Conversion Summary ---") ;;
  let num_entities :=
    List.length (get_default lightrag_formatted_data "entities" []) in
  let num_relations :=
    List.length (get_default lightrag_formatted_data "relations" []) in
  print ("Total entities converted: "
         ++ format (VInt (Z.of_nat num_entities))) ;;
  print ("Total relationships converted: "
         ++ format (VInt (Z.of_nat num_relations))) ;;
  (if (0 <? num_entities)%nat then
     print (nl ++ "Sample Entity:") ;;
     entities <- lift (getitem lightrag_formatted_data "entities") ;;
     sample <- lift (first_item entities) ;;
     print (format (VMap sample))
   else ret tt) ;;
  (if (0 <? num_relations)%nat then
     print (nl ++ "Sample Relation:") ;;
     relations <- lift (getitem lightrag_formatted_data "relations") ;;
     sample <- lift (first_item relations) ;;
     print (format (VMap sample))
   else ret tt).

Definition main : M unit :=
  logger_info "--- Neo4j to LightRAG Converter ---" ;;
  __init__ NEO4J_URI NEO4J_USERNAME NEO4J_PASSWORD NEO4J_DATABASE ;;
  async_with __aenter__ __aexit__ main_block.

(** The [__main__] block: [asyncio.run(main())] under its [try]. *)
Definition script : M unit :=
  try_except main
    [ (isinstance_KeyboardInterrupt,
       fun _ => logger_info "Conversion process cancelled by user.") ].

End Program.

End Converter.

(** ** The vocabulary of the specification *)

Module Spec.

Import Py Converter.

(** *** Whitespace-delimited tokens

    A token is a maximal run of characters that are not whitespace.  Tokens
    are counted by their first characters: a character that is not whitespace
    and stands at the start of the text or right after whitespace. *)
Fixpoint count_token_starts (after_space : bool) (s : string) : nat :=
  match s with
  | EmptyString => 0
  | String c rest =>
      (if after_space && negb (isspace c) then 1 else 0)
      + count_token_starts (isspace c) rest
  end.

Definition whitespace_token_count (s : string) : nat :=
  count_token_starts true s.

Fixpoint has_space (s : string) : bool :=
  match s with
  | EmptyString => false
  | String c rest => isspace c || has_space rest
  end.

Fixpoint remove_spaces (s : string) : string :=
  match s with
  | EmptyString => EmptyString
  | String c rest =>
      if isspace c then remove_spaces rest else String c (remove_spaces rest)
  end.

Definition is_token (t : string) : Prop :=
  is_empty t = false /\ has_space t = false.

(** *** The name of a node, in the words of the specification

    "The first non-empty value among the name property, the title property
    and the raw identifier": a value is empty when it is missing ([null]) or
    the empty string. *)
Definition is_empty_value (v : value) : bool :=
  match v with
  | VNull => true
  | VStr s => is_empty s
  | _ => false
  end.

Fixpoint first_non_empty (vs : list value) : value :=
  match vs with
  | [] => VNull
  | v :: rest => if is_empty_value v then first_non_empty rest else v
  end.

Definition name_by_first_non_empty (n : Cypher.Node) : value :=
  first_non_empty
    [ Cypher.prop (Cypher.node_properties n) "name";
      Cypher.prop (Cypher.node_properties n) "title";
      Cypher.elementId_node n ].

(** *** The weight of a relation, in the words of the specification

    "1.0 unless the relationship carries an explicit numeric weight
    property", and then that property. *)
Definition weight_by_property (r : Cypher.Relationship) : value :=
  match Cypher.prop (Cypher.rel_properties r) "weight" with
  | VInt z => VInt z
  | VFloat f => VFloat f
  | _ => VFloat float_1_0
  end.

(** *** The field names of the downstream contract *)

Definition kg_keys : list string := ["entities"; "relations"; "chunks"].

Definition entity_fields : list string :=
  ["entity_name"; "entity_type"; "description"; "source_id"].

Definition relation_fields : list string :=
  ["src_id"; "tgt_id"; "description"; "keywords"; "weight"; "source_id"].

Definition chunk_fields : list string :=
  ["chunk_id"; "content"; "source_id"; "tokens"; "chunk_order_index"].

(** A dictionary carries exactly the given field names. *)
Definition carries_exactly {A} (d : dict A) (fields : list string) : Prop :=
  NoDup (keys d) /\ forall k, In k (keys d) <-> In k fields.

Fixpoint distinct (l : list string) : bool :=
  match l with
  | [] => true
  | x :: rest => negb (existsb (String.eqb x) rest) && distinct rest
  end.

Definition included (l1 l2 : list string) : bool :=
  forallb (fun x => existsb (String.eqb x) l2) l1.

(** The same, as a test on the list of keys. *)
Definition carries_exactly_test (ks fields : list string) : bool :=
  distinct ks && included ks fields && included fields ks.

(** *** Relating the records of the output *)

(** A chunk as the data model describes it, for the node row it derives
    from. *)
Definition chunk_matches_node (node chunk : row) : Prop :=
  exists id description,
    get node "source_id" = Some (VStr id)
    /\ get node "description" = Some (VStr description)
    /\ get chunk "chunk_id" = Some (VStr ("chunk_" ++ id))
    /\ get chunk "content" = Some (VStr description)
    /\ get chunk "source_id" = Some (VStr id)
    /\ get chunk "chunk_order_index" = Some (VInt 0).

(** Some entity of the sequence is named [name]. *)
Definition names_an_entity (entities : list row) (name : value) : Prop :=
  exists e, In e entities /\ get e "entity_name" = Some name.

Definition endpoints_are_entities (entities : list row) (relation : row)
  : Prop :=
  exists src_id tgt_id,
    get relation "src_id" = Some src_id
    /\ get relation "tgt_id" = Some tgt_id
    /\ names_an_entity entities src_id
    /\ names_an_entity entities tgt_id.

(** The name of a node by the chain name, title, element identifier, where a
    link of the chain is skipped exactly when the property is missing. *)
Definition name_by_first_present (n : Cypher.Node) (name : value) : Prop :=
  let props := Cypher.node_properties n in
  (Cypher.prop props "name" <> VNull -> name = Cypher.prop props "name")
  /\ (Cypher.prop props "name" = VNull ->
      Cypher.prop props "title" <> VNull ->
      name = Cypher.prop props "title")
  /\ (Cypher.prop props "name" = VNull ->
      Cypher.prop props "title" = VNull ->
      name = VStr (Cypher.node_element_id n))
  /\ (get props "name" = None ->
      get props "title" = None ->
      name = VStr (Cypher.node_element_id n)).

(** *** Worlds *)

(** The converter holds an open driver. *)
Definition connected (w : World) : Prop := exists d, _driver (self w) = Some d.

(** The next two queries are answered. *)
Definition queries_answered (server : Server) (w : World) : Prop :=
  query_fault server (queries_sent w) = None
  /\ query_fault server (S (queries_sent w)) = None.

(** One of the next two queries fails with [e]: the first, or the second
    after the first was answered. *)
Definition a_query_fails (server : Server) (w : World) (e : exn) : Prop :=
  query_fault server (queries_sent w) = Some e
  \/ (query_fault server (queries_sent w) = None
      /\ query_fault server (S (queries_sent w)) = Some e).

(** The world after a query went through a session. *)
Definition after_query (w : World) : World :=
  count_session_closed (count_query (count_session_opened w)).

(** The chunk that the comprehension builds from the row of node [n]. *)
Definition chunk_of_node (toJson : value -> string) (n : Cypher.Node) : row :=
  let description := toJson (Cypher.properties_node n) in
  [ ("chunk_id", VStr ("chunk_" ++ Cypher.node_element_id n));
    ("content", VStr description);
    ("source_id", VStr (Cypher.node_element_id n));
    ("tokens", len (split description));
    ("chunk_order_index", VInt 0) ].

(** What a statement leaves alone: the converter object and the counts of
    drivers created and closed. *)
Definition keeps_driver {A} (m : M A) : Prop :=
  forall w,
    self (snd (m w)) = self w
    /\ drivers_created (snd (m w)) = drivers_created w
    /\ drivers_closed (snd (m w)) = drivers_closed w.

End Spec.

(** ** Concrete inputs for the examples *)

Module Sample.

Import Py Converter.

Definition dquote : string := String (ascii_of_nat 34) EmptyString.

Definition decimal (z : Z) : string := NilZero.string_of_int (Z.to_int z).

(** A small JSON printer standing in for [apoc.convert.toJson]: no escapes
    in strings, and floats are not printed digit by digit. *)
Fixpoint toJson (v : value) : string :=
  match v with
  | VNull => "null"
  | VBool true => "true"
  | VBool false => "false"
  | VInt z => decimal z
  | VFloat _ => "<float>"
  | VStr s => (dquote ++ s ++ dquote)%string
  | VList l =>
      ("["
       ++ (fix items (l : list value) : string :=
             match l with
             | [] => ""
             | x :: rest =>
                 toJson x
                 ++ match rest with [] => "" | _ => "," ++ items rest end
             end) l
       ++ "]")%string
  | VMap m =>
      ("{"
       ++ (fix members (m : list (string * value)) : string :=
             match m with
             | [] => ""
             | (k, x) :: rest =>
                 dquote ++ k ++ dquote ++ ":" ++ toJson x
                 ++ match rest with [] => "" | _ => "," ++ members rest end
             end) m
       ++ "}")%string
  end.

(** Standing in for [str] of Python. *)
Definition str_of_object (v : value) : string :=
  match v with
  | VInt z => decimal z
  | other => toJson other
  end.

Definition alice : Cypher.Node :=
  Cypher.mkNode "4:db:0" ["Person"] [("name", VStr "Alice"); ("age", VInt 30)].

Definition book : Cypher.Node :=
  Cypher.mkNode "4:db:1" ["Book"; "Item"] [("title", VStr "Dune")].

Definition anonymous : Cypher.Node :=
  Cypher.mkNode "4:db:2" [] [("age", VInt 7)].

(** A node whose name is the empty string. *)
Definition unnamed : Cypher.Node :=
  Cypher.mkNode "4:db:3" ["Person"] [("name", VStr ""); ("title", VStr "Dr")].

Definition reads : Cypher.Relationship :=
  Cypher.mkRelationship "5:db:0" "READS" "4:db:0" "4:db:1" [("since", VInt 2020)].

(** A relationship with a numeric weight property. *)
Definition rates : Cypher.Relationship :=
  Cypher.mkRelationship "5:db:1" "RATES" "4:db:2" "4:db:1" [("weight", VInt 5)].

Definition library : Cypher.Graph :=
  Cypher.mkGraph [alice; book; anonymous] [reads; rates].

Definition empty_graph : Cypher.Graph := Cypher.mkGraph [] [].

Definition never : nat -> option exn := fun _ => None.

Definition server_on (g : Cypher.Graph) : Server := mkServer None None g never.

Definition timed_out : exn := mkExn OtherException "query timed out".

(** The second query of a run fails. *)
Definition second_fails : nat -> option exn :=
  fun k => match k with 1 => Some timed_out | _ => None end.

Definition bad_uri : exn := mkExn OtherException "URI scheme not supported".

Definition server_rejecting_uri : Server :=
  mkServer (Some bad_uri) None library never.

Definition bad_password : exn := mkExn AuthError "unauthorized".

Definition server_rejecting_password : Server :=
  mkServer None (Some bad_password) library never.

(** The world before the program starts. *)
Definition world0 : World :=
  mkWorld (mkConverter "" "" "" "" None) [] [] 0 0 0 0 0.

Definition driver0 : Driver := mkDriver "bolt://localhost:7687" ("neo4j", "password").

(** The world inside the [async with] block of [main]. *)
Definition world_connected : World :=
  mkWorld (mkConverter "bolt://localhost:7687" "neo4j" "password" "neo4j"
                       (Some driver0))
          [] [] 0 0 0 1 0.

End Sample.

(** ** Further vocabulary: what the statements of the program do to the
    world, and the shape of arbitrary rows *)

Module Behaviour.

Import Py Converter.

(** Every run of [m] relates the world before to the world after by [R]. *)
Definition respects {A} (R : World -> World -> Prop) (m : M A) : Prop :=
  forall w, R w (snd (m w)).

Definition same_stdout (w w' : World) : Prop := stdout w' = stdout w.

(** The connection settings of the converter object. *)
Definition same_settings (w w' : World) : Prop :=
  uri (self w') = uri (self w)
  /\ user (self w') = user (self w)
  /\ password (self w') = password (self w)
  /\ database (self w') = database (self w).

(** Creating the driver raises [e], or verifying the connection does. *)
Definition connecting_fails (server : Server) (e : exn) : Prop :=
  driver_outcome server = Some e
  \/ (driver_outcome server = None /\ verify_outcome server = Some e).

(** What the handlers of [__aenter__] log for [e]. *)
Definition connection_error_log (e : exn) : list (level * string) :=
  if isinstance_AuthError e then
    [(ERROR, "Authentication failed for Neo4j. Please check your credentials.")]
  else if isinstance_Exception e then
    [(ERROR, ("Failed to connect to Neo4j: " ++ exn_message e)%string)]
  else [].

(** What the handlers of [_run_query] log for [e]. *)
Definition query_error_log (e : exn) : list (level * string) :=
  if isinstance_CypherSyntaxError e then
    [(ERROR, ("Cypher query syntax error: " ++ exn_message e)%string)]
  else if isinstance_Exception e then
    [(ERROR,
      ("An error occurred while running the query: " ++ exn_message e)%string)]
  else [].

(** The error of asking [None] for a session. *)
Definition no_session : exn :=
  mkExn AttributeError "'NoneType' object has no attribute 'session'".

(** A row from which a chunk can be built: it has a [source_id] and a
    [description] that is a [str]. *)
Definition has_chunk_fields (node : row) : Prop :=
  exists id description,
    get node "source_id" = Some id
    /\ get node "description" = Some (VStr description).

(** The chunk of an arbitrary row; [str_of_object] prints a [source_id]
    that is not a [str]. *)
Definition chunk_from_row (str_of_object : value -> string)
           (node chunk : row) : Prop :=
  exists id description,
    get node "source_id" = Some id
    /\ get node "description" = Some (VStr description)
    /\ chunk
       = [ ("chunk_id", VStr ("chunk_" ++ format str_of_object id));
           ("content", VStr description);
           ("source_id", id);
           ("tokens", VInt (Z.of_nat (Spec.whitespace_token_count description)));
           ("chunk_order_index", VInt 0) ].


(** A text of whitespace only. *)
Fixpoint all_space (s : string) : bool :=
  match s with
  | EmptyString => true
  | String c rest => isspace c && all_space rest
  end.

(** A text ends, or goes on with whitespace. *)
Definition ends_or_space (s : string) : Prop :=
  s = EmptyString \/ exists c rest, s = String c rest /\ isspace c = true.

(** The tokens of a text, as its maximal runs of characters that are not
    whitespace: the text is whitespace, then a token, then a remainder that
    is empty or starts with whitespace, and so on; a text of whitespace only
    has no token. *)
Inductive splits_into : string -> list string -> Prop :=
| splits_blank : forall s, all_space s = true -> splits_into s []
| splits_token : forall ws t rest ts,
    all_space ws = true ->
    Spec.is_token t ->
    ends_or_space rest ->
    splits_into rest ts ->
    splits_into (ws ++ t ++ rest) (t :: ts).

(** The first label of a node, [null] for a node without label. *)
Definition first_label (n : Cypher.Node) : value :=
  match Cypher.node_labels n with
  | [] => VNull
  | l :: _ => VStr l
  end.

(** A graph as the database keeps it: element identifiers of nodes are
    distinct, and every relationship starts and ends at a node of the
    graph. *)
Definition node_ids (g : Cypher.Graph) : list string :=
  map Cypher.node_element_id (Cypher.graph_nodes g).

Definition well_formed (g : Cypher.Graph) : Prop :=
  NoDup (node_ids g)
  /\ Forall
       (fun r => In (Cypher.rel_start r) (node_ids g)
                 /\ In (Cypher.rel_end r) (node_ids g))
       (Cypher.graph_relationships g).

(** The row of a relationship, apart from the names of its end points. *)
Definition relation_of (toJson : value -> string)
           (r : Cypher.Relationship) (relation : row) : Prop :=
  get relation "description" = Some (VStr (Cypher.rel_type r))
  /\ get relation "keywords"
     = Some (VStr (toJson (VMap (Cypher.rel_properties r))))
  /\ get relation "source_id" = Some (VStr (Cypher.rel_element_id r)).

(** The entity with the given [source_id] is named [name]. *)
Definition names_entity_with_id (entities : list row) (id : string)
           (name : value) : Prop :=
  exists entity,
    In entity entities
    /\ get entity "source_id" = Some (VStr id)
    /\ get entity "entity_name" = Some name.

(** The row of relationship [r]: its end points are named as the entities
    of its start and end nodes are, and the rest describes [r]. *)
Definition relation_row (toJson : value -> string) (entities : list row)
           (r : Cypher.Relationship) (relation : row) : Prop :=
  (exists src_id,
     get relation "src_id" = Some src_id
     /\ names_entity_with_id entities (Cypher.rel_start r) src_id)
  /\ (exists tgt_id,
        get relation "tgt_id" = Some tgt_id
        /\ names_entity_with_id entities (Cypher.rel_end r) tgt_id)
  /\ relation_of toJson r relation.

(** The lines [main] prints for a conversion result. *)
Definition summary (str_of_object : value -> string)
           (entities relations : list row) : list string :=
  [ nl ++ "--- Conversion Summary ---";
    "Total entities converted: "
    ++ str_of_object (VInt (Z.of_nat (List.length entities)));
    "Total relationships converted: "
    ++ str_of_object (VInt (Z.of_nat (List.length relations))) ]%string
  ++ match entities with
     | [] => []
     | sample :: _ => [(nl ++ "Sample Entity:")%string;
                       str_of_object (VMap sample)]
     end
  ++ match relations with
     | [] => []
     | sample :: _ => [(nl ++ "Sample Relation:")%string;
                       str_of_object (VMap sample)]
     end.

(** The next four queries are answered. *)
Definition four_queries_answered (server : Server) (w : World) : Prop :=
  query_fault server (queries_sent w) = None
  /\ query_fault server (S (queries_sent w)) = None
  /\ query_fault server (S (S (queries_sent w))) = None
  /\ query_fault server (S (S (S (queries_sent w)))) = None.

(** The records a conversion logs when both queries are answered. *)
Definition success_log (str_of_object : value -> string)
           (entities relations : list row) : list (level * string) :=
  [ (INFO, "Starting conversion from Neo4j to LightRAG format...");
    (INFO, "Fetching nodes from Neo4j...");
    (INFO,
     ("Found " ++ str_of_object (VInt (Z.of_nat (List.length entities)))
      ++ " nodes.")%string);
    (INFO, "Fetching relationships from Neo4j...");
    (INFO,
     ("Found " ++ str_of_object (VInt (Z.of_nat (List.length relations)))
      ++ " relationships.")%string);
    (INFO, "Successfully converted data to LightRAG format.") ].

(** The entity of node [n] in a sequence of entities, with its name. *)
Definition entity_named (entities : list row) (n : Cypher.Node)
           (name : value) : Prop :=
  names_entity_with_id entities (Cypher.node_element_id n) name.

(** As many sessions were closed as were opened between two worlds. *)
Definition sessions_balanced (w w' : World) : Prop :=
  sessions_opened w' + sessions_closed w
  = sessions_closed w' + sessions_opened w.

(** The driver is created and the connection verified. *)
Definition connects (server : Server) : Prop :=
  driver_outcome server = None /\ verify_outcome server = None.

End Behaviour.

(** ** Facts about [str.split] *)

Import Py Converter.
Local Open Scope py_scope.

Section SplitFacts.

Lemma is_empty_snoc (w : string) c : is_empty (w ++ String c EmptyString) = false.
Proof. destruct w; reflexivity. Qed.

Lemma has_space_snoc (w : string) c :
  Spec.has_space (w ++ String c EmptyString) = Spec.has_space w || isspace c.
Proof.
  induction w as [|a w IH]; cbn.
  - now rewrite orb_false_r.
  - rewrite IH. now rewrite orb_assoc.
Qed.

Lemma append_snoc (w : string) c s :
  ((w ++ String c EmptyString) ++ s = w ++ String c s)%string.
Proof. induction w as [|a w IH]; cbn; [reflexivity | now rewrite IH]. Qed.

Lemma append_empty_r (w : string) : (w ++ EmptyString = w)%string.
Proof. induction w as [|a w IH]; cbn; [reflexivity | now rewrite IH]. Qed.

Lemma concat_cons t ts :
  String.concat EmptyString (t :: ts)
  = (t ++ String.concat EmptyString ts)%string.
Proof. destruct ts; cbn; [now rewrite append_empty_r | reflexivity]. Qed.

(** The scan yields one word per token start, and one more for the word it
    is in the middle of. *)
Lemma split_scan_length w s :
  List.length (split_scan w s)
  = (if is_empty w then 0 else 1) + Spec.count_token_starts (is_empty w) s.
Proof.
  revert w. induction s as [|c s IH]; intros w; cbn.
  - destruct (is_empty w); reflexivity.
  - destruct (isspace c) eqn:Hc; cbn.
    + rewrite andb_false_r.
      destruct (is_empty w) eqn:Hw; cbn; rewrite IH; cbn; reflexivity.
    + rewrite IH, is_empty_snoc, andb_true_r.
      destruct (is_empty w); cbn; lia.
Qed.

Lemma split_length s :
  List.length (split s) = Spec.whitespace_token_count s.
Proof. unfold split. rewrite split_scan_length. reflexivity. Qed.

Lemma split_scan_tokens w s :
  Spec.has_space w = false -> Forall Spec.is_token (split_scan w s).
Proof.
  revert w. induction s as [|c s IH]; intros w Hw; cbn.
  - destruct (is_empty w) eqn:E; constructor; [split; assumption | constructor].
  - destruct (isspace c) eqn:Hc.
    + destruct (is_empty w) eqn:E.
      * now apply IH.
      * constructor; [split; assumption | now apply IH].
    + apply IH. rewrite has_space_snoc, Hw, Hc. reflexivity.
Qed.

(** Every word of the result is a token: not empty, free of whitespace. *)
Lemma split_tokens s : Forall Spec.is_token (split s).
Proof. apply split_scan_tokens. reflexivity. Qed.

Lemma split_scan_concat w s :
  String.concat EmptyString (split_scan w s)
  = (w ++ Spec.remove_spaces s)%string.
Proof.
  revert w.
  induction s as [|c s IH]; intros w; cbn [split_scan Spec.remove_spaces].
  - destruct w; cbn; [reflexivity | now rewrite append_empty_r].
  - destruct (isspace c) eqn:Hc.
    + destruct (is_empty w) eqn:E.
      * rewrite IH. destruct w; [reflexivity | discriminate].
      * rewrite concat_cons, IH. reflexivity.
    + rewrite IH. apply append_snoc.
Qed.

(** The words, put together, are the text without its whitespace. *)
Lemma split_concat s :
  String.concat EmptyString (split s) = Spec.remove_spaces s.
Proof. unfold split. now rewrite split_scan_concat. Qed.

Example split_a_b_c : split "a b  c" = ["a"; "b"; "c"].
Proof. reflexivity. Qed.

Example split_tabs_and_newlines :
  split (" x" ++ nl ++ nl ++ "y z ") = ["x"; "y"; "z"].
Proof. reflexivity. Qed.

Example split_blank : split "   " = [].
Proof. reflexivity. Qed.

End SplitFacts.

(** ** Field names *)

Section Fields.

Lemma existsb_eqb_In x l : existsb (String.eqb x) l = true <-> In x l.
Proof.
  rewrite existsb_exists. split.
  - intros (y & Hy & E). apply String.eqb_eq in E. now subst.
  - intros H. exists x. split; [exact H | apply String.eqb_refl].
Qed.

Lemma distinct_NoDup l : Spec.distinct l = true -> NoDup l.
Proof.
  induction l as [|x l IH]; cbn; intros H; constructor;
    apply andb_prop in H; destruct H as [H1 H2].
  - intros Hin. apply existsb_eqb_In in Hin. rewrite Hin in H1. discriminate.
  - now apply IH.
Qed.

Lemma included_In l1 l2 : Spec.included l1 l2 = true -> forall x, In x l1 -> In x l2.
Proof.
  unfold Spec.included. rewrite forallb_forall. intros H x Hx.
  apply existsb_eqb_In. now apply H.
Qed.

Lemma fields_exact {A} (d : dict A) fields :
  Spec.carries_exactly_test (keys d) fields = true ->
  Spec.carries_exactly d fields.
Proof.
  unfold Spec.carries_exactly_test. intros H.
  apply andb_prop in H. destruct H as [H H3].
  apply andb_prop in H. destruct H as [H1 H2].
  split; [now apply distinct_NoDup|].
  intros k. split; [now apply included_In | now apply included_In].
Qed.

End Fields.

(** ** What the statements of the program leave alone *)

Section Frame.

Lemma keeps_ret {A} (a : A) : Spec.keeps_driver (ret a).
Proof. intros w. repeat split. Qed.

Lemma keeps_raise {A} e : Spec.keeps_driver (@raise A e).
Proof. intros w. repeat split. Qed.

Lemma keeps_lift {A} (r : result A) : Spec.keeps_driver (lift r).
Proof. intros w. repeat split. Qed.

Lemma keeps_gets {A} (f : World -> A) : Spec.keeps_driver (gets f).
Proof. intros w. repeat split. Qed.

Lemma keeps_logger_info msg : Spec.keeps_driver (logger_info msg).
Proof. intros w. repeat split. Qed.

Lemma keeps_logger_error msg : Spec.keeps_driver (logger_error msg).
Proof. intros w. repeat split. Qed.

Lemma keeps_print line : Spec.keeps_driver (print line).
Proof. intros w. repeat split. Qed.

Lemma keeps_count_query : Spec.keeps_driver (modify count_query).
Proof. intros w. repeat split. Qed.

Lemma keeps_count_session_opened :
  Spec.keeps_driver (modify count_session_opened).
Proof. intros w. repeat split. Qed.

Lemma keeps_session_exit exc : Spec.keeps_driver (session_exit exc).
Proof. intros w. repeat split. Qed.

Lemma keeps_bind {A B} (m : M A) (k : A -> M B) :
  Spec.keeps_driver m -> (forall a, Spec.keeps_driver (k a)) ->
  Spec.keeps_driver (bind m k).
Proof.
  intros Hm Hk w. unfold bind.
  specialize (Hm w). destruct (m w) as [[a|e] w']; cbn in Hm.
  - destruct (Hk a w') as (H1 & H2 & H3). destruct Hm as (G1 & G2 & G3).
    repeat split; congruence.
  - exact Hm.
Qed.

Lemma keeps_dispatch {A} (clauses : list ((exn -> bool) * (exn -> M A))) :
  Forall (fun c => forall e, Spec.keeps_driver (snd c e)) clauses ->
  forall e, Spec.keeps_driver (dispatch clauses e).
Proof.
  induction 1 as [|[test handler] rest Hh _ IH]; intros e; cbn.
  - apply keeps_raise.
  - destruct (test e); [apply Hh | apply IH].
Qed.

Lemma keeps_try_except {A} (body : M A) clauses :
  Spec.keeps_driver body ->
  Forall (fun c => forall e, Spec.keeps_driver (snd c e)) clauses ->
  Spec.keeps_driver (try_except body clauses).
Proof.
  intros Hb Hc w. unfold try_except.
  specialize (Hb w). destruct (body w) as [[a|e] w']; cbn in Hb.
  - exact Hb.
  - destruct (keeps_dispatch Hc e w') as (H1 & H2 & H3).
    destruct Hb as (G1 & G2 & G3). repeat split; congruence.
Qed.

Lemma keeps_async_with {A B} (aenter : M A) aexit (body : A -> M B) :
  Spec.keeps_driver aenter ->
  (forall exc, Spec.keeps_driver (aexit exc)) ->
  (forall a, Spec.keeps_driver (body a)) ->
  Spec.keeps_driver (async_with aenter aexit body).
Proof.
  intros He Hx Hb w. unfold async_with.
  specialize (He w). destruct (aenter w) as [[a|e] w1]; cbn in He; [|exact He].
  specialize (Hb a w1). destruct (body a w1) as [[b|e] w2]; cbn in Hb.
  - specialize (Hx None w2).
    destruct (aexit None w2) as [[u|e'] w3]; cbn in *; intuition congruence.
  - specialize (Hx (Some e) w2).
    destruct (aexit (Some e) w2) as [[u|e'] w3]; cbn in *; intuition congruence.
Qed.

End Frame.

Ltac keeps_step :=
  lazymatch goal with
  | |- Spec.keeps_driver (ret _) => apply keeps_ret
  | |- Spec.keeps_driver (raise _) => apply keeps_raise
  | |- Spec.keeps_driver (lift _) => apply keeps_lift
  | |- Spec.keeps_driver (gets _) => apply keeps_gets
  | |- Spec.keeps_driver (logger_info _) => apply keeps_logger_info
  | |- Spec.keeps_driver (logger_error _) => apply keeps_logger_error
  | |- Spec.keeps_driver (print _) => apply keeps_print
  | |- Spec.keeps_driver (modify count_query) => apply keeps_count_query
  | |- Spec.keeps_driver (modify count_session_opened) =>
      apply keeps_count_session_opened
  | |- Spec.keeps_driver (session_exit _) => apply keeps_session_exit
  | |- Spec.keeps_driver (try_except _ _) => apply keeps_try_except
  | |- Spec.keeps_driver (async_with _ _ _) =>
      apply keeps_async_with; [ | intro | intro ]
  | |- Spec.keeps_driver (bind _ _) => apply keeps_bind; [ | intro ]
  | |- Spec.keeps_driver (let _ := _ in _) => cbv zeta
  | |- Spec.keeps_driver (if ?b then _ else _) => destruct b
  | |- Spec.keeps_driver (match ?x with _ => _ end) => destruct x
  | |- Forall _ (_ :: _) => apply Forall_cons; [ cbn [snd]; intro | ]
  | |- Forall _ [] => apply Forall_nil
  end.

Ltac keeps := repeat keeps_step.

(** ** Running queries and the conversion *)

Section Properties.

Variable toJson : value -> string.
Variable str_of_object : value -> string.
Variable environ : dict string.
Variable server : Server.

Lemma bind_log {A} l msg (k : unit -> M A) w :
  bind (modify (add_log l msg)) k w = k tt (add_log l msg w).
Proof. reflexivity. Qed.

Lemma bind_returns {A B} (m : M A) (k : A -> M B) w a w' :
  m w = (Return a, w') -> bind m k w = k a w'.
Proof. intros H. unfold bind. rewrite H. reflexivity. Qed.

Lemma bind_raises {A B} (m : M A) (k : A -> M B) w e w' :
  m w = (Raise e, w') -> bind m k w = (Raise e, w').
Proof. intros H. unfold bind. rewrite H. reflexivity. Qed.

Lemma map_data (l : list row) : map data l = l.
Proof. unfold data. apply map_id. Qed.

(** A query that the server answers returns the rows the query text denotes
    on the graph. *)
Lemma run_query_ok (q : Query) params w d :
  _driver (self w) = Some d ->
  query_fault server (queries_sent w) = None ->
  _run_query server q params w = (Return (q (graph server)), Spec.after_query w).
Proof.
  intros Hd Hq.
  unfold _run_query, try_except, bind, gets, async_with, driver_session,
    session_run, session_exit, modify, ret, bind, gets.
  rewrite Hd. cbn. rewrite Hq. cbn. rewrite map_data. reflexivity.
Qed.

(** A query on which the server fails raises that very exception, after the
    session was closed; the handlers only log. *)
Lemma run_query_fails (q : Query) params w d e :
  _driver (self w) = Some d ->
  query_fault server (queries_sent w) = Some e ->
  exists w',
    _run_query server q params w = (Raise e, w')
    /\ sessions_closed w' = S (sessions_closed w)
    /\ sessions_opened w' = S (sessions_opened w).
Proof.
  intros Hd Hq.
  unfold _run_query, try_except, bind, gets, async_with, driver_session,
    session_run, session_exit, modify, ret, bind, gets.
  rewrite Hd. cbn. rewrite Hq. cbn.
  destruct e as [c msg]; destruct c; cbn; eexists; repeat split.
Qed.

(** Whatever happens to a query, the session opened for it is closed. *)
Lemma run_query_releases_session (q : Query) params w :
  let w' := snd (_run_query server q params w) in
  sessions_opened w' + sessions_closed w
  = sessions_closed w' + sessions_opened w.
Proof.
  unfold _run_query, try_except, bind, gets, async_with, driver_session,
    session_run, session_exit, modify, ret, bind, gets.
  destruct (_driver (self w)) as [d|]; cbn; [|lia].
  destruct (query_fault server (queries_sent w)) as [[c msg]|]; cbn; [|lia].
  destruct c; cbn; lia.
Qed.

Lemma keeps_run_query q params : Spec.keeps_driver (_run_query server q params).
Proof. unfold _run_query, driver_session, session_run. keeps. Qed.

Lemma keeps_convert : Spec.keeps_driver (convert_to_lightrag_format toJson str_of_object server).
Proof.
  unfold convert_to_lightrag_format. keeps; apply keeps_run_query.
Qed.

Lemma chunks_of_node_rows (g : Cypher.Graph) :
  comprehension (chunk_of str_of_object) (node_query toJson g)
  = Return (map (Spec.chunk_of_node toJson) (Cypher.graph_nodes g)).
Proof.
  unfold node_query, Cypher.match_nodes.
  induction (Cypher.graph_nodes g) as [|n ns IH]; [reflexivity|].
  cbn [map comprehension]. rewrite IH. reflexivity.
Qed.

(** The output of a conversion whose two queries are answered. *)
Lemma convert_ok w :
  Spec.connected w ->
  Spec.queries_answered server w ->
  fst (convert_to_lightrag_format toJson str_of_object server w)
  = Return
      [ ("entities", node_query toJson (graph server));
        ("relations", relationship_query toJson (graph server));
        ("chunks",
         map (Spec.chunk_of_node toJson) (Cypher.graph_nodes (graph server))) ].
Proof.
  intros [d Hd] [H0 H1].
  unfold convert_to_lightrag_format, logger_info.
  rewrite !bind_log.
  erewrite bind_returns
    by (apply run_query_ok with (d := d); [exact Hd | exact H0]).
  rewrite !bind_log.
  erewrite bind_returns
    by (apply run_query_ok with (d := d); [exact Hd | exact H1]).
  rewrite !bind_log.
  unfold lift.
  erewrite bind_returns by (rewrite chunks_of_node_rows; reflexivity).
  reflexivity.
Qed.

Lemma Forall2_map_both {A B C} (P : B -> C -> Prop) (f : A -> B) (g : A -> C) l :
  (forall x, In x l -> P (f x) (g x)) -> Forall2 P (map f l) (map g l).
Proof.
  induction l as [|x l IH]; intros H; cbn; constructor.
  - apply H. now left.
  - apply IH. intros y Hy. apply H. now right.
Qed.

Lemma Forall2_map_right {A B} (P : A -> B -> Prop) (f : A -> B) l :
  (forall x, In x l -> P x (f x)) -> Forall2 P l (map f l).
Proof.
  intros H. rewrite <- (map_id l) at 1. now apply Forall2_map_both.
Qed.

Lemma Forall_map_all {A B} (P : B -> Prop) (f : A -> B) l :
  (forall x, In x l -> P (f x)) -> Forall P (map f l).
Proof. intros H. apply Forall_forall. intros y Hy. apply in_map_iff in Hy. destruct Hy as (x & <- & Hx). now apply H. Qed.

(** The bindings of the relationship pattern take both nodes from the
    graph. *)
Lemma match_relationships_nodes g src r tgt :
  In (src, r, tgt) (Cypher.match_relationships g) ->
  In src (Cypher.graph_nodes g) /\ In tgt (Cypher.graph_nodes g).
Proof.
  unfold Cypher.match_relationships, Cypher.nodes_with_id. intros H.
  apply in_flat_map in H. destruct H as (r' & _ & H).
  apply in_flat_map in H. destruct H as (src' & Hs & H).
  apply in_map_iff in H. destruct H as (tgt' & E & Ht).
  inversion E; subst.
  apply filter_In in Hs. apply filter_In in Ht. tauto.
Qed.

Lemma prop_missing props k : get props k = None -> Cypher.prop props k = VNull.
Proof.
  unfold Cypher.prop.
  induction props as [|[k' v] rest IH]; cbn; [reflexivity|].
  destruct (String.eqb k' k); [discriminate | exact IH].
Qed.

Lemma bind_modify {A} f (k : unit -> M A) w : bind (modify f) k w = k tt (f w).
Proof. reflexivity. Qed.

(** Entering the converter when the driver is created and the connection
    verified. *)
Lemma aenter_ok w :
  driver_outcome server = None ->
  verify_outcome server = None ->
  exists w1,
    __aenter__ server w = (Return tt, w1)
    /\ Spec.connected w1
    /\ drivers_created w1 = S (drivers_created w)
    /\ drivers_closed w1 = drivers_closed w.
Proof.
  intros Hd Hv.
  unfold __aenter__, try_except, bind, gets, AsyncGraphDatabase_driver,
    verify_connectivity.
  rewrite Hd, Hv. cbn. eexists. split; [reflexivity|].
  split; [eexists; reflexivity | split; reflexivity].
Qed.

(** Entering the converter when creating the driver raises: the exception
    goes on, no driver exists. *)
Lemma aenter_without_driver w e :
  driver_outcome server = Some e ->
  exists w1,
    __aenter__ server w = (Raise e, w1)
    /\ drivers_created w1 = drivers_created w
    /\ drivers_closed w1 = drivers_closed w.
Proof.
  intros Hd.
  unfold __aenter__, try_except, bind, gets, AsyncGraphDatabase_driver.
  rewrite Hd. cbn.
  destruct e as [c msg]; destruct c; cbn; eexists; repeat split.
Qed.

Lemma aexit_closes w exc :
  Spec.connected w ->
  exists w1,
    __aexit__ exc w = (Return tt, w1)
    /\ drivers_created w1 = drivers_created w
    /\ drivers_closed w1 = S (drivers_closed w).
Proof.
  intros [d Hd]. unfold __aexit__, bind, gets. rewrite Hd. cbn.
  eexists. repeat split.
Qed.

(** The block under [async with] in [main] leaves the driver alone. *)
Lemma keeps_main_block a :
  Spec.keeps_driver (main_block toJson str_of_object server a).
Proof.
  unfold main_block. keeps; apply keeps_convert.
Qed.

Lemma async_with_entered {A B} (aenter : M A) aexit (body : A -> M B) w a w1 :
  aenter w = (Return a, w1) ->
  exists r w2 r' w3,
    body a w1 = (r, w2)
    /\ aexit (match r with Return _ => None | Raise e => Some e end) w2
       = (r', w3)
    /\ snd (async_with aenter aexit body w) = w3.
Proof.
  intros He. unfold async_with. rewrite He.
  destruct (body a w1) as [[b|e] w2].
  - destruct (aexit None w2) as [[u|e'] w3] eqn:Hx;
      eexists _, _, _, _; repeat split; exact Hx.
  - destruct (aexit (Some e) w2) as [[u|e'] w3] eqn:Hx;
      eexists _, _, _, _; repeat split; exact Hx.
Qed.

Lemma async_with_not_entered {A B} (aenter : M A) aexit (body : A -> M B) w e w1 :
  aenter w = (Raise e, w1) ->
  async_with aenter aexit body w = (Raise e, w1).
Proof. intros He. unfold async_with. rewrite He. reflexivity. Qed.

(** ** The properties of the conversion *)

(** C1.  For every result sequence of the node query, the conversion
    produces exactly one chunk per node record, in the same order; the
    chunk's [chunk_id] is the text [chunk_] followed by the node's
    [source_id], its [content] is the node's [description], its [source_id]
    is the node's [source_id] and its [chunk_order_index] is 0.  The node
    records are the rows [_run_query] returns for the node query, one per
    node of the graph, and they are the [entities] of the output. *)
Theorem chunks_one_per_node w :
  Spec.connected w ->
  Spec.queries_answered server w ->
  exists kg nodes_data chunks,
    fst (_run_query server (node_query toJson) None w) = Return nodes_data
    /\ nodes_data = node_query toJson (graph server)
    /\ List.length nodes_data
       = List.length (Cypher.graph_nodes (graph server))
    /\ fst (convert_to_lightrag_format toJson str_of_object server w)
       = Return kg
    /\ get kg "entities" = Some nodes_data
    /\ get kg "chunks" = Some chunks
    /\ List.length chunks = List.length nodes_data
    /\ Forall2 Spec.chunk_matches_node nodes_data chunks
    /\ Forall2
         (fun n chunk =>
            get chunk "chunk_id"
            = Some (VStr ("chunk_" ++ Cypher.node_element_id n))
            /\ get chunk "content"
               = Some (VStr (toJson (VMap (Cypher.node_properties n))))
            /\ get chunk "source_id" = Some (VStr (Cypher.node_element_id n))
            /\ get chunk "chunk_order_index" = Some (VInt 0))
         (Cypher.graph_nodes (graph server)) chunks.
Proof.
  intros Hc Hq. destruct (Hc) as [d Hd]. destruct (Hq) as [H0 H1].
  eexists _, _, _.
  split; [now rewrite (run_query_ok _ _ _ Hd H0)|].
  split; [reflexivity|].
  split; [unfold node_query, Cypher.match_nodes; now rewrite length_map|].
  split; [apply convert_ok; assumption|].
  split; [reflexivity|]. split; [reflexivity|].
  unfold node_query, Cypher.match_nodes.
  split; [now rewrite !length_map|].
  split.
  - apply Forall2_map_both. intros n _.
    exists (Cypher.node_element_id n), (toJson (Cypher.properties_node n)).
    repeat split.
  - apply Forall2_map_right. intros n _. repeat split.
Qed.

(** C2, as amended.  For every relationship row produced by the conversion
    the [weight] field is 1.0, whether or not the relationship carries a
    weight property. *)
Theorem relation_weight_is_constant w :
  Spec.connected w ->
  Spec.queries_answered server w ->
  exists kg relations,
    fst (convert_to_lightrag_format toJson str_of_object server w) = Return kg
    /\ get kg "relations" = Some relations
    /\ Forall (fun relation => get relation "weight" = Some (VFloat float_1_0))
         relations.
Proof.
  intros Hc Hq. eexists _, _.
  split; [apply convert_ok; assumption|]. split; [reflexivity|].
  unfold relationship_query. apply Forall_map_all.
  intros [[src r] tgt] _. reflexivity.
Qed.

(** C3.  For every relation record of the output, [src_id] and [tgt_id]
    each equal the [entity_name] of some entity record of the output: both
    queries derive the name by the same fallback expression, and the node
    query returns every node. *)
Theorem relation_endpoints_are_entities w :
  Spec.connected w ->
  Spec.queries_answered server w ->
  exists kg entities relations,
    fst (convert_to_lightrag_format toJson str_of_object server w) = Return kg
    /\ get kg "entities" = Some entities
    /\ get kg "relations" = Some relations
    /\ Forall (Spec.endpoints_are_entities entities) relations.
Proof.
  intros Hc Hq. eexists _, _, _.
  split; [apply convert_ok; assumption|].
  split; [reflexivity|]. split; [reflexivity|].
  unfold relationship_query. apply Forall_map_all.
  intros [[src r] tgt] Hb. apply match_relationships_nodes in Hb.
  destruct Hb as [Hs Ht].
  eexists _, _. split; [reflexivity|]. split; [reflexivity|].
  unfold Spec.names_an_entity, node_query, Cypher.match_nodes.
  split.
  - eexists. split; [apply in_map; exact Hs | reflexivity].
  - eexists. split; [apply in_map; exact Ht | reflexivity].
Qed.

(** C4.  When a query fails, and in particular when the relationship query
    fails after the node query succeeded, the conversion raises that error
    and returns no output structure. *)
Theorem query_failure_aborts_conversion w e :
  Spec.connected w ->
  Spec.a_query_fails server w e ->
  fst (convert_to_lightrag_format toJson str_of_object server w) = Raise e
  /\ forall kg, fst (convert_to_lightrag_format toJson str_of_object server w) <> Return kg.
Proof.
  intros [d Hd] Hf.
  assert (H : fst (convert_to_lightrag_format toJson str_of_object server w) = Raise e).
  { unfold convert_to_lightrag_format, logger_info. rewrite !bind_log.
    destruct Hf as [H0 | [H0 H1]].
    - destruct (@run_query_fails (node_query toJson) None
                  (add_log INFO "Fetching nodes from Neo4j..."
                     (add_log INFO
                        "Starting conversion from Neo4j to LightRAG format..."
                        w)) d e Hd H0) as (w' & E & _).
      erewrite bind_raises by exact E. reflexivity.
    - erewrite bind_returns
        by (apply run_query_ok with (d := d); [exact Hd | exact H0]).
      rewrite !bind_log.
      match goal with
      | |- context [bind (_run_query _ _ _) _ ?w1] =>
          destruct (@run_query_fails (relationship_query toJson) None w1 d e
                      Hd H1) as (w' & E & _)
      end.
      erewrite bind_raises by exact E. reflexivity. }
  split; [exact H|]. intros kg. rewrite H. discriminate.
Qed.

(** C5.  When both queries succeed and return no row, the conversion
    returns, without error, the structure whose three sequences are
    empty. *)
Theorem empty_results_convert_to_empty_sequences w :
  Spec.connected w ->
  Spec.queries_answered server w ->
  node_query toJson (graph server) = [] ->
  relationship_query toJson (graph server) = [] ->
  fst (convert_to_lightrag_format toJson str_of_object server w)
  = Return [("entities", []); ("relations", []); ("chunks", [])].
Proof.
  intros Hc Hq Hn Hr. rewrite convert_ok by assumption.
  rewrite Hn, Hr. unfold node_query, Cypher.match_nodes in Hn.
  apply map_eq_nil in Hn. rewrite Hn. reflexivity.
Qed.

(** C6, as amended.  For every node, [entity_name] is the first value that
    is present (not null) in the chain name property, title property,
    element identifier; a node with neither a name nor a title gets its
    element identifier. *)
Theorem entity_name_is_first_present w :
  Spec.connected w ->
  Spec.queries_answered server w ->
  exists kg entities,
    fst (convert_to_lightrag_format toJson str_of_object server w) = Return kg
    /\ get kg "entities" = Some entities
    /\ Forall2
         (fun n entity =>
            exists name,
              get entity "entity_name" = Some name
              /\ Spec.name_by_first_present n name)
         (Cypher.graph_nodes (graph server)) entities.
Proof.
  intros Hc Hq. eexists _, _.
  split; [apply convert_ok; assumption|]. split; [reflexivity|].
  unfold node_query, Cypher.match_nodes. apply Forall2_map_right.
  intros n _. eexists. split; [reflexivity|].
  unfold Spec.name_by_first_present. cbn [Cypher.coalesce].
  repeat split.
  - intros H. destruct (Cypher.prop _ "name"); cbn; congruence.
  - intros H1 H2. rewrite H1. cbn.
    destruct (Cypher.prop _ "title"); cbn; congruence.
  - intros H1 H2. rewrite H1, H2. reflexivity.
  - intros H1 H2. rewrite (prop_missing _ _ H1), (prop_missing _ _ H2).
    reflexivity.
Qed.

(** C7, as amended.  Whenever verifying the connection does not fail, the
    driver's close operation runs exactly as often as a driver was created:
    once when the driver was created, on normal return and on a query
    failure alike, and not at all when creating the driver failed. *)
Theorem driver_closed_as_often_as_created w :
  verify_outcome server = None ->
  let n := match driver_outcome server with None => 1 | Some _ => 0 end in
  drivers_created (snd (main toJson str_of_object environ server w)) = drivers_created w + n
  /\ drivers_closed (snd (main toJson str_of_object environ server w)) = drivers_closed w + n.
Proof.
  intros Hv. unfold main, logger_info, __init__.
  rewrite bind_log, bind_modify.
  match goal with
  | |- context [async_with _ _ _ ?w0] => set (w1 := w0)
  end.
  assert (Hc : drivers_created w1 = drivers_created w) by reflexivity.
  assert (Hx : drivers_closed w1 = drivers_closed w) by reflexivity.
  destruct (driver_outcome server) as [e|] eqn:Hd; cbv zeta.
  - destruct (@aenter_without_driver w1 e Hd) as (w2 & E & H1 & H2).
    erewrite async_with_not_entered by exact E. cbn [snd]. lia.
  - destruct (@aenter_ok w1 Hd Hv) as (w2 & E & Hconn & H1 & H2).
    destruct (@async_with_entered _ _ _ __aexit__
                (main_block toJson str_of_object server) _ _ _ E)
      as (r & w3 & r' & w4 & Hb & He & ->).
    destruct (keeps_main_block tt w2) as (K1 & K2 & K3).
    rewrite Hb in K1, K2, K3. cbn [snd] in K1, K2, K3.
    assert (Hconn3 : Spec.connected w3).
    { destruct Hconn as [d Hdrv]. exists d. now rewrite K1. }
    destruct (@aexit_closes w3
                (match r with Return _ => None | Raise e => Some e end) Hconn3)
      as (w5 & E5 & C1 & C2).
    rewrite He in E5. inversion E5; subst. lia.
Qed.

(** C8.  For every chunk, [tokens] is the number of whitespace-delimited
    tokens of its [content], a run of whitespace counting as one delimiter;
    the text [a b  c] has three. *)
Theorem chunk_tokens_count_whitespace_tokens w :
  Spec.connected w ->
  Spec.queries_answered server w ->
  (exists kg chunks,
     fst (convert_to_lightrag_format toJson str_of_object server w) = Return kg
     /\ get kg "chunks" = Some chunks
     /\ Forall
          (fun chunk =>
             exists content,
               get chunk "content" = Some (VStr content)
               /\ get chunk "tokens"
                  = Some (VInt (Z.of_nat (Spec.whitespace_token_count content))))
          chunks)
  /\ Spec.whitespace_token_count "a b  c" = 3
  /\ List.length (split "a b  c") = 3.
Proof.
  intros Hc Hq. split; [|split; reflexivity].
  eexists _, _.
  split; [apply convert_ok; assumption|]. split; [reflexivity|].
  apply Forall_map_all. intros n _.
  exists (toJson (Cypher.properties_node n)). split; [reflexivity|].
  cbn. unfold len. now rewrite split_length.
Qed.

(** C9, as amended.  The output is keyed by exactly the names [entities],
    [relations] and [chunks]; every relation carries exactly the fields
    [src_id], [tgt_id], [description], [keywords], [weight], [source_id],
    every chunk exactly [chunk_id], [content], [source_id], [tokens],
    [chunk_order_index], and every entity the fields [entity_name],
    [entity_type], [description], [source_id] together with a fifth,
    [properties]. *)
Theorem output_field_names w :
  Spec.connected w ->
  Spec.queries_answered server w ->
  exists kg entities relations chunks,
    fst (convert_to_lightrag_format toJson str_of_object server w) = Return kg
    /\ keys kg = Spec.kg_keys
    /\ get kg "entities" = Some entities
    /\ get kg "relations" = Some relations
    /\ get kg "chunks" = Some chunks
    /\ Forall
         (fun entity =>
            Spec.carries_exactly entity (Spec.entity_fields ++ ["properties"]))
         entities
    /\ Forall (fun relation => Spec.carries_exactly relation Spec.relation_fields)
         relations
    /\ Forall (fun chunk => Spec.carries_exactly chunk Spec.chunk_fields) chunks.
Proof.
  intros Hc Hq. eexists _, _, _, _.
  split; [apply convert_ok; assumption|].
  do 4 (split; [reflexivity|]).
  split; [|split]; apply Forall_map_all.
  - intros n _. apply fields_exact. reflexivity.
  - intros [[src r] tgt] _. apply fields_exact. reflexivity.
  - intros n _. apply fields_exact. reflexivity.
Qed.

(** C10.  The [entities] and [relations] sequences of the output are the
    row sequences of the two query results, unchanged: no record is
    transformed, dropped or moved, and every column the query returns,
    the raw [properties] mapping of an entity among them, is in the output
    record. *)
Theorem rows_pass_through_unchanged w :
  Spec.connected w ->
  Spec.queries_answered server w ->
  exists kg nodes_data relationships_data,
    fst (_run_query server (node_query toJson) None w) = Return nodes_data
    /\ fst (_run_query server (relationship_query toJson) None w)
       = Return relationships_data
    /\ nodes_data = node_query toJson (graph server)
    /\ relationships_data = relationship_query toJson (graph server)
    /\ fst (convert_to_lightrag_format toJson str_of_object server w) = Return kg
    /\ get kg "entities" = Some nodes_data
    /\ get kg "relations" = Some relationships_data
    /\ Forall2
         (fun n entity =>
            get entity "properties" = Some (VMap (Cypher.node_properties n)))
         (Cypher.graph_nodes (graph server)) nodes_data.
Proof.
  intros Hc Hq. destruct (Hc) as [d Hd]. destruct (Hq) as [H0 H1].
  eexists _, _, _.
  split; [now rewrite (run_query_ok _ _ _ Hd H0)|].
  split; [now rewrite (run_query_ok _ _ _ Hd H0)|].
  split; [reflexivity|]. split; [reflexivity|].
  split; [apply convert_ok; assumption|].
  split; [reflexivity|]. split; [reflexivity|].
  apply Forall2_map_right. intros n _. reflexivity.
Qed.

End Properties.

(** ** The properties on concrete inputs *)

Section Instances.

Local Abbreviation convert_sample :=
  (convert_to_lightrag_format Sample.toJson Sample.str_of_object).
Local Abbreviation main_sample :=
  (main Sample.toJson Sample.str_of_object []).

Lemma sample_connected : Spec.connected Sample.world_connected.
Proof. eexists. reflexivity. Qed.

Lemma sample_answered g :
  Spec.queries_answered (Sample.server_on g) Sample.world_connected.
Proof. split; reflexivity. Qed.

(** The entity of the node [{name: "Alice", age: 30}] with label
    [Person]. *)
Example alice_entity :
  exists kg entities alice,
    fst (convert_sample (Sample.server_on Sample.library)
           Sample.world_connected) = Return kg
    /\ get kg "entities" = Some entities
    /\ nth_error entities 0 = Some alice
    /\ get alice "entity_name" = Some (VStr "Alice")
    /\ get alice "entity_type" = Some (VStr "Person")
    /\ get alice "description"
       = Some (VStr (Sample.toJson (VMap [("name", VStr "Alice");
                                          ("age", VInt 30)]))).
Proof. eexists _, _, _. repeat split. Qed.

(** A node without label has [null] as its type; one with two labels has
    the first. *)
Example entity_types :
  map (fun entity => get entity "entity_type")
      (node_query Sample.toJson Sample.library)
  = [Some (VStr "Person"); Some (VStr "Book"); Some VNull].
Proof. reflexivity. Qed.

(** A run of the whole program: the summary it prints and the handles it
    leaves. *)
Example main_on_library :
  let w := snd (main_sample (Sample.server_on Sample.library) Sample.world0) in
  fst (main_sample (Sample.server_on Sample.library) Sample.world0) = Return tt
  /\ nth_error (stdout w) 1 = Some "Total entities converted: 3"
  /\ nth_error (stdout w) 2 = Some "Total relationships converted: 2"
  /\ sessions_opened w = 2 /\ sessions_closed w = 2
  /\ drivers_created w = 1 /\ drivers_closed w = 1.
Proof. vm_compute. repeat split. Qed.

(** When verifying the connection raises, the exit method is not run and
    the driver that was created stays open. *)
Example driver_left_open_when_verification_fails :
  let w := snd (main_sample Sample.server_rejecting_password Sample.world0) in
  fst (main_sample Sample.server_rejecting_password Sample.world0)
  = Raise Sample.bad_password
  /\ drivers_created w = 1 /\ drivers_closed w = 0.
Proof. vm_compute. repeat split. Qed.

(** An interrupt is not an [Exception]: no handler of the converter logs
    it, the driver is closed, and the [__main__] block catches it. *)
Example interrupt_during_first_query :
  let interrupt := mkExn KeyboardInterrupt "" in
  let server :=
    mkServer None None Sample.library
             (fun k => match k with 0 => Some interrupt | _ => None end) in
  let w := snd (script Sample.toJson Sample.str_of_object [] server
                  Sample.world0) in
  fst (script Sample.toJson Sample.str_of_object [] server Sample.world0)
  = Return tt
  /\ drivers_closed w = 1
  /\ sessions_closed w = 1
  /\ last (log w) (INFO, "") = (INFO, "Conversion process cancelled by user.").
Proof. vm_compute. repeat split. Qed.

(** *** Witnesses *)

Lemma chunks_one_per_node_witness :
  Spec.connected Sample.world_connected
  /\ Spec.queries_answered (Sample.server_on Sample.library)
       Sample.world_connected
  /\ exists kg nodes_data chunks,
      fst (_run_query (Sample.server_on Sample.library)
             (node_query Sample.toJson) None Sample.world_connected)
      = Return nodes_data
      /\ nodes_data = node_query Sample.toJson Sample.library
      /\ List.length nodes_data
         = List.length (Cypher.graph_nodes Sample.library)
      /\ fst (convert_sample (Sample.server_on Sample.library)
                Sample.world_connected) = Return kg
      /\ get kg "entities" = Some nodes_data
      /\ get kg "chunks" = Some chunks
      /\ List.length chunks = List.length nodes_data
      /\ Forall2 Spec.chunk_matches_node nodes_data chunks
      /\ Forall2
           (fun n chunk =>
              get chunk "chunk_id"
              = Some (VStr ("chunk_" ++ Cypher.node_element_id n))
              /\ get chunk "content"
                 = Some (VStr (Sample.toJson
                                 (VMap (Cypher.node_properties n))))
              /\ get chunk "source_id"
                 = Some (VStr (Cypher.node_element_id n))
              /\ get chunk "chunk_order_index" = Some (VInt 0))
           (Cypher.graph_nodes Sample.library) chunks.
Proof.
  split; [exact sample_connected|].
  split; [exact (sample_answered Sample.library)|].
  exact (@chunks_one_per_node Sample.toJson Sample.str_of_object
           (Sample.server_on Sample.library) Sample.world_connected
           sample_connected (sample_answered Sample.library)).
Defined.

Lemma relation_weight_is_constant_witness :
  Spec.connected Sample.world_connected
  /\ Spec.queries_answered (Sample.server_on Sample.library)
       Sample.world_connected
  /\ exists kg relations,
      fst (convert_sample (Sample.server_on Sample.library)
             Sample.world_connected) = Return kg
      /\ get kg "relations" = Some relations
      /\ Forall
           (fun relation => get relation "weight" = Some (VFloat float_1_0))
           relations.
Proof.
  split; [exact sample_connected|].
  split; [exact (sample_answered Sample.library)|].
  exact (@relation_weight_is_constant Sample.toJson Sample.str_of_object
           (Sample.server_on Sample.library) Sample.world_connected
           sample_connected (sample_answered Sample.library)).
Defined.

Lemma relation_endpoints_are_entities_witness :
  Spec.connected Sample.world_connected
  /\ Spec.queries_answered (Sample.server_on Sample.library)
       Sample.world_connected
  /\ exists kg entities relations,
      fst (convert_sample (Sample.server_on Sample.library)
             Sample.world_connected) = Return kg
      /\ get kg "entities" = Some entities
      /\ get kg "relations" = Some relations
      /\ Forall (Spec.endpoints_are_entities entities) relations.
Proof.
  split; [exact sample_connected|].
  split; [exact (sample_answered Sample.library)|].
  exact (@relation_endpoints_are_entities Sample.toJson Sample.str_of_object
           (Sample.server_on Sample.library) Sample.world_connected
           sample_connected (sample_answered Sample.library)).
Defined.

(** The relationship query fails after the node query succeeded. *)
Lemma query_failure_aborts_conversion_witness :
  let server := mkServer None None Sample.library Sample.second_fails in
  Spec.connected Sample.world_connected
  /\ Spec.a_query_fails server Sample.world_connected Sample.timed_out
  /\ fst (convert_sample server Sample.world_connected) = Raise Sample.timed_out
  /\ forall kg, fst (convert_sample server Sample.world_connected) <> Return kg.
Proof.
  assert (Hf : Spec.a_query_fails
                 (mkServer None None Sample.library Sample.second_fails)
                 Sample.world_connected Sample.timed_out)
    by (right; split; reflexivity).
  split; [exact sample_connected|].
  split; [exact Hf|].
  exact (@query_failure_aborts_conversion Sample.toJson Sample.str_of_object
           (mkServer None None Sample.library Sample.second_fails)
           Sample.world_connected Sample.timed_out sample_connected Hf).
Defined.

Lemma empty_results_convert_to_empty_sequences_witness :
  Spec.connected Sample.world_connected
  /\ Spec.queries_answered (Sample.server_on Sample.empty_graph)
       Sample.world_connected
  /\ node_query Sample.toJson Sample.empty_graph = []
  /\ relationship_query Sample.toJson Sample.empty_graph = []
  /\ fst (convert_sample (Sample.server_on Sample.empty_graph)
            Sample.world_connected)
     = Return [("entities", []); ("relations", []); ("chunks", [])].
Proof.
  split; [exact sample_connected|].
  split; [exact (sample_answered Sample.empty_graph)|].
  split; [reflexivity|]. split; [reflexivity|].
  exact (@empty_results_convert_to_empty_sequences Sample.toJson
           Sample.str_of_object (Sample.server_on Sample.empty_graph)
           Sample.world_connected sample_connected
           (sample_answered Sample.empty_graph) eq_refl eq_refl).
Defined.

Lemma entity_name_is_first_present_witness :
  Spec.connected Sample.world_connected
  /\ Spec.queries_answered (Sample.server_on Sample.library)
       Sample.world_connected
  /\ exists kg entities,
      fst (convert_sample (Sample.server_on Sample.library)
             Sample.world_connected) = Return kg
      /\ get kg "entities" = Some entities
      /\ Forall2
           (fun n entity =>
              exists name,
                get entity "entity_name" = Some name
                /\ Spec.name_by_first_present n name)
           (Cypher.graph_nodes Sample.library) entities.
Proof.
  split; [exact sample_connected|].
  split; [exact (sample_answered Sample.library)|].
  exact (@entity_name_is_first_present Sample.toJson Sample.str_of_object
           (Sample.server_on Sample.library) Sample.world_connected
           sample_connected (sample_answered Sample.library)).
Defined.

(** A run in which the relationship query fails: the driver is closed
    once. *)
Lemma driver_closed_as_often_as_created_witness :
  let server := mkServer None None Sample.library Sample.second_fails in
  verify_outcome server = None
  /\ drivers_created (snd (main_sample server Sample.world0)) = 0 + 1
  /\ drivers_closed (snd (main_sample server Sample.world0)) = 0 + 1.
Proof.
  split; [reflexivity|].
  exact (@driver_closed_as_often_as_created Sample.toJson Sample.str_of_object
           [] (mkServer None None Sample.library Sample.second_fails)
           Sample.world0 eq_refl).
Defined.

Lemma chunk_tokens_count_whitespace_tokens_witness :
  Spec.connected Sample.world_connected
  /\ Spec.queries_answered (Sample.server_on Sample.library)
       Sample.world_connected
  /\ (exists kg chunks,
        fst (convert_sample (Sample.server_on Sample.library)
               Sample.world_connected) = Return kg
        /\ get kg "chunks" = Some chunks
        /\ Forall
             (fun chunk =>
                exists content,
                  get chunk "content" = Some (VStr content)
                  /\ get chunk "tokens"
                     = Some (VInt (Z.of_nat
                                     (Spec.whitespace_token_count content))))
             chunks)
  /\ Spec.whitespace_token_count "a b  c" = 3
  /\ List.length (split "a b  c") = 3.
Proof.
  split; [exact sample_connected|].
  split; [exact (sample_answered Sample.library)|].
  exact (@chunk_tokens_count_whitespace_tokens Sample.toJson
           Sample.str_of_object (Sample.server_on Sample.library)
           Sample.world_connected sample_connected
           (sample_answered Sample.library)).
Defined.

Lemma output_field_names_witness :
  Spec.connected Sample.world_connected
  /\ Spec.queries_answered (Sample.server_on Sample.library)
       Sample.world_connected
  /\ exists kg entities relations chunks,
      fst (convert_sample (Sample.server_on Sample.library)
             Sample.world_connected) = Return kg
      /\ keys kg = Spec.kg_keys
      /\ get kg "entities" = Some entities
      /\ get kg "relations" = Some relations
      /\ get kg "chunks" = Some chunks
      /\ Forall
           (fun entity =>
              Spec.carries_exactly entity
                (Spec.entity_fields ++ ["properties"]))
           entities
      /\ Forall
           (fun relation => Spec.carries_exactly relation Spec.relation_fields)
           relations
      /\ Forall (fun chunk => Spec.carries_exactly chunk Spec.chunk_fields)
           chunks.
Proof.
  split; [exact sample_connected|].
  split; [exact (sample_answered Sample.library)|].
  exact (@output_field_names Sample.toJson Sample.str_of_object
           (Sample.server_on Sample.library) Sample.world_connected
           sample_connected (sample_answered Sample.library)).
Defined.

Lemma rows_pass_through_unchanged_witness :
  Spec.connected Sample.world_connected
  /\ Spec.queries_answered (Sample.server_on Sample.library)
       Sample.world_connected
  /\ exists kg nodes_data relationships_data,
      fst (_run_query (Sample.server_on Sample.library)
             (node_query Sample.toJson) None Sample.world_connected)
      = Return nodes_data
      /\ fst (_run_query (Sample.server_on Sample.library)
                (relationship_query Sample.toJson) None Sample.world_connected)
         = Return relationships_data
      /\ nodes_data = node_query Sample.toJson Sample.library
      /\ relationships_data = relationship_query Sample.toJson Sample.library
      /\ fst (convert_sample (Sample.server_on Sample.library)
                Sample.world_connected) = Return kg
      /\ get kg "entities" = Some nodes_data
      /\ get kg "relations" = Some relationships_data
      /\ Forall2
           (fun n entity =>
              get entity "properties"
              = Some (VMap (Cypher.node_properties n)))
           (Cypher.graph_nodes Sample.library) nodes_data.
Proof.
  split; [exact sample_connected|].
  split; [exact (sample_answered Sample.library)|].
  exact (@rows_pass_through_unchanged Sample.toJson Sample.str_of_object
           (Sample.server_on Sample.library) Sample.world_connected
           sample_connected (sample_answered Sample.library)).
Defined.

(** *** Where the code departs from the wording of a claim *)

(** C2 as stated fails: the relationship [RATES] carries the numeric
    property [weight: 5], and its row has the weight 1.0. *)
Lemma relation_weight_ignores_property :
  exists kg relations relation,
    fst (convert_sample (Sample.server_on Sample.library)
           Sample.world_connected) = Return kg
    /\ get kg "relations" = Some relations
    /\ nth_error relations 1 = Some relation
    /\ get relation "source_id"
       = Some (VStr (Cypher.rel_element_id Sample.rates))
    /\ Cypher.prop (Cypher.rel_properties Sample.rates) "weight" = VInt 5
    /\ Spec.weight_by_property Sample.rates = VInt 5
    /\ get relation "weight" = Some (VFloat float_1_0)
    /\ get relation "weight" <> Some (Spec.weight_by_property Sample.rates).
Proof.
  eexists _, _, _.
  do 7 (split; [reflexivity|]).
  cbn. discriminate.
Qed.

(** C6 as stated fails: a node whose name is the empty string and whose
    title is [Dr] is named by the empty string, while the first non-empty
    value of the chain is the title. *)
Lemma entity_name_keeps_empty_name :
  let g := Cypher.mkGraph [Sample.unnamed] [] in
  exists kg entities entity,
    fst (convert_sample (Sample.server_on g) Sample.world_connected)
    = Return kg
    /\ get kg "entities" = Some entities
    /\ nth_error entities 0 = Some entity
    /\ get entity "entity_name" = Some (VStr "")
    /\ Spec.name_by_first_non_empty Sample.unnamed = VStr "Dr"
    /\ get entity "entity_name"
       <> Some (Spec.name_by_first_non_empty Sample.unnamed).
Proof.
  eexists _, _, _.
  do 5 (split; [reflexivity|]).
  cbn. discriminate.
Qed.

(** C7 as stated fails: when creating the driver raises, the program ends
    with that exception and close has not run at all. *)
Lemma driver_not_closed_when_creation_fails :
  let w := snd (main_sample Sample.server_rejecting_uri Sample.world0) in
  fst (main_sample Sample.server_rejecting_uri Sample.world0)
  = Raise Sample.bad_uri
  /\ drivers_created w = 0
  /\ drivers_closed w = 0
  /\ drivers_closed w <> 1.
Proof. vm_compute. repeat split. discriminate. Qed.

(** C9 as stated fails: the entity of a node carries a fifth field,
    [properties], which is not among the four of the contract. *)
Lemma entity_carries_properties_field :
  exists kg entities entity,
    fst (convert_sample (Sample.server_on Sample.library)
           Sample.world_connected) = Return kg
    /\ get kg "entities" = Some entities
    /\ nth_error entities 0 = Some entity
    /\ keys entity
       = ["source_id"; "entity_name"; "entity_type"; "description";
          "properties"]
    /\ ~ In "properties" Spec.entity_fields
    /\ ~ Spec.carries_exactly entity Spec.entity_fields.
Proof.
  eexists _, _, _.
  do 4 (split; [reflexivity|]).
  assert (H : ~ In "properties" Spec.entity_fields).
  { cbn. intros H. repeat destruct H as [H|H]; try discriminate H. exact H. }
  split; [exact H|].
  intros [_ Hk]. apply H. apply Hk. cbn. tauto.
Qed.

End Instances.

(** ** Relations that every statement of a program respects *)

Section Respects.

Variable R : World -> World -> Prop.
Hypothesis R_refl : forall w, R w w.
Hypothesis R_trans : forall a b c, R a b -> R b c -> R a c.

Lemma respects_ret {A} (a : A) : Behaviour.respects R (ret a).
Proof. intros w. apply R_refl. Qed.

Lemma respects_raise {A} e : Behaviour.respects R (@raise A e).
Proof. intros w. apply R_refl. Qed.

Lemma respects_lift {A} (r : result A) : Behaviour.respects R (lift r).
Proof. intros w. apply R_refl. Qed.

Lemma respects_gets {A} (f : World -> A) : Behaviour.respects R (gets f).
Proof. intros w. apply R_refl. Qed.

Lemma respects_bind {A B} (m : M A) (k : A -> M B) :
  Behaviour.respects R m -> (forall a, Behaviour.respects R (k a)) ->
  Behaviour.respects R (bind m k).
Proof.
  intros Hm Hk w. unfold bind.
  specialize (Hm w). destruct (m w) as [[a|e] w']; cbn in Hm.
  - eapply R_trans; [exact Hm | apply Hk].
  - exact Hm.
Qed.

Lemma respects_dispatch {A} (clauses : list ((exn -> bool) * (exn -> M A))) :
  Forall (fun c => forall e, Behaviour.respects R (snd c e)) clauses ->
  forall e, Behaviour.respects R (dispatch clauses e).
Proof.
  induction 1 as [|[test handler] rest Hh _ IH]; intros e; cbn.
  - apply respects_raise.
  - destruct (test e); [apply Hh | apply IH].
Qed.

Lemma respects_try_except {A} (body : M A) clauses :
  Behaviour.respects R body ->
  Forall (fun c => forall e, Behaviour.respects R (snd c e)) clauses ->
  Behaviour.respects R (try_except body clauses).
Proof.
  intros Hb Hc w. unfold try_except.
  specialize (Hb w). destruct (body w) as [[a|e] w']; cbn in Hb.
  - exact Hb.
  - eapply R_trans; [exact Hb | apply (respects_dispatch Hc e w')].
Qed.

Lemma respects_async_with {A B} (aenter : M A) aexit (body : A -> M B) :
  Behaviour.respects R aenter ->
  (forall exc, Behaviour.respects R (aexit exc)) ->
  (forall a, Behaviour.respects R (body a)) ->
  Behaviour.respects R (async_with aenter aexit body).
Proof.
  intros He Hx Hb w. unfold async_with.
  specialize (He w). destruct (aenter w) as [[a|e] w1]; cbn in He; [|exact He].
  specialize (Hb a w1). destruct (body a w1) as [[b|e] w2]; cbn in Hb.
  - specialize (Hx None w2).
    destruct (aexit None w2) as [[u|e'] w3]; cbn in *;
      (eapply R_trans; [exact He|]); (eapply R_trans; [exact Hb | exact Hx]).
  - specialize (Hx (Some e) w2).
    destruct (aexit (Some e) w2) as [[u|e'] w3]; cbn in *;
      (eapply R_trans; [exact He|]); (eapply R_trans; [exact Hb | exact Hx]).
Qed.

End Respects.

(** One step through the structure of a statement; [leaf] closes the goals
    about a single update of the world. *)
Ltac respects_step Hr Ht leaf :=
  lazymatch goal with
  | |- Behaviour.respects _ (ret _) => apply respects_ret; exact Hr
  | |- Behaviour.respects _ (raise _) => apply respects_raise; exact Hr
  | |- Behaviour.respects _ (lift _) => apply respects_lift; exact Hr
  | |- Behaviour.respects _ (gets _) => apply respects_gets; exact Hr
  | |- Behaviour.respects _ (try_except _ _) =>
      apply respects_try_except; [ exact Hr | exact Ht | | ]
  | |- Behaviour.respects _ (async_with _ _ _) =>
      apply respects_async_with; [ exact Ht | | intro | intro ]
  | |- Behaviour.respects _ (bind _ _) =>
      apply respects_bind; [ exact Ht | | intro ]
  | |- Behaviour.respects _ (let _ := _ in _) => cbv zeta
  | |- Behaviour.respects _ (if ?b then _ else _) => destruct b
  | |- Behaviour.respects _ (match ?x with _ => _ end) => destruct x
  | |- Forall _ (_ :: _) => apply Forall_cons; [ cbn [snd]; intro | ]
  | |- Forall _ [] => apply Forall_nil
  | |- Behaviour.respects _ (modify _) => solve [intro; leaf]
  | |- Behaviour.respects _ (logger_info _) => solve [intro; leaf]
  | |- Behaviour.respects _ (logger_error _) => solve [intro; leaf]
  | |- Behaviour.respects _ (print _) => solve [intro; leaf]
  | |- Behaviour.respects _ (session_exit _) => solve [intro; leaf]
  | |- Behaviour.respects _ (driver_close _) => solve [intro; leaf]
  end.

Ltac respects Hr Ht leaf := repeat respects_step Hr Ht leaf.

Section Relations.

Lemma same_stdout_refl w : Behaviour.same_stdout w w.
Proof. reflexivity. Qed.

Lemma same_stdout_trans a b c :
  Behaviour.same_stdout a b -> Behaviour.same_stdout b c ->
  Behaviour.same_stdout a c.
Proof. unfold Behaviour.same_stdout. congruence. Qed.

Lemma same_settings_refl w : Behaviour.same_settings w w.
Proof. repeat split. Qed.

Lemma same_settings_trans a b c :
  Behaviour.same_settings a b -> Behaviour.same_settings b c ->
  Behaviour.same_settings a c.
Proof. unfold Behaviour.same_settings. intuition congruence. Qed.

End Relations.

Ltac quiet := respects same_stdout_refl same_stdout_trans ltac:(reflexivity).
Ltac settled :=
  respects same_settings_refl same_settings_trans ltac:(repeat split).

(** ** Further behaviour of the converter *)

Section Behaviours.

Variable toJson : value -> string.
Variable str_of_object : value -> string.
Variable environ : dict string.
Variable server : Server.

Lemma quiet_run_query q params :
  Behaviour.respects Behaviour.same_stdout (_run_query server q params).
Proof.
  unfold _run_query, driver_session, session_run. quiet.
Qed.

Lemma quiet_convert :
  Behaviour.respects Behaviour.same_stdout
    (convert_to_lightrag_format toJson str_of_object server).
Proof.
  unfold convert_to_lightrag_format. quiet; apply quiet_run_query.
Qed.

Lemma quiet_aenter :
  Behaviour.respects Behaviour.same_stdout (__aenter__ server).
Proof.
  unfold __aenter__, AsyncGraphDatabase_driver, verify_connectivity. quiet.
Qed.

Lemma quiet_aexit exc : Behaviour.respects Behaviour.same_stdout (__aexit__ exc).
Proof. unfold __aexit__. quiet. Qed.

Lemma sessions_balanced_refl w : Behaviour.sessions_balanced w w.
Proof. unfold Behaviour.sessions_balanced. lia. Qed.

Lemma sessions_balanced_trans a b c :
  Behaviour.sessions_balanced a b -> Behaviour.sessions_balanced b c ->
  Behaviour.sessions_balanced a c.
Proof. unfold Behaviour.sessions_balanced. lia. Qed.

Lemma balanced_run_query q params :
  Behaviour.respects Behaviour.sessions_balanced (_run_query server q params).
Proof. intros w. apply run_query_releases_session. Qed.

(** *** Connecting *)

(** The world after an [__aenter__] that fails. *)
Lemma aenter_fails_world w e :
  Behaviour.connecting_fails server e ->
  exists w',
    __aenter__ server w = (Raise e, w')
    /\ log w' = log w ++ Behaviour.connection_error_log e
    /\ stdout w' = stdout w
    /\ queries_sent w' = queries_sent w
    /\ drivers_closed w' = drivers_closed w
    /\ drivers_created w'
       = drivers_created w
         + match driver_outcome server with None => 1 | Some _ => 0 end.
Proof.
  intros [Hd | [Hd Hv]];
    unfold __aenter__, try_except, bind, gets, AsyncGraphDatabase_driver,
      verify_connectivity;
    rewrite Hd; cbn; [|rewrite Hv; cbn];
    destruct e as [c msg]; destruct c; cbn; eexists;
    repeat split; rewrite ?app_nil_r; try reflexivity; cbn; lia.
Qed.

(** X1.  When creating the driver or verifying the connection raises,
    [__aenter__] raises that very exception, logs the one record of the
    handler that caught it (none for an exception that is not an
    [Exception]), prints nothing and sends no query. *)
Theorem aenter_reraises w e :
  Behaviour.connecting_fails server e ->
  exists w',
    __aenter__ server w = (Raise e, w')
    /\ log w' = log w ++ Behaviour.connection_error_log e
    /\ stdout w' = stdout w
    /\ queries_sent w' = queries_sent w
    /\ drivers_closed w' = drivers_closed w.
Proof.
  intros H.
  destruct (aenter_fails_world w H) as (w' & E & Hl & Hs & Hq & Hc & _).
  exists w'. repeat split; assumption.
Qed.

(** *** Queries *)

(** X3.  A query run on a converter that holds no driver raises the attribute
    error of [None], logged by the general handler; no session is opened and
    nothing reaches the server.  The conversion then ends with that error
    at its first query. *)
Theorem run_query_without_driver (q : Query) params w :
  _driver (self w) = None ->
  (exists w',
     _run_query server q params w = (Raise Behaviour.no_session, w')
     /\ log w' = log w ++ Behaviour.query_error_log Behaviour.no_session
     /\ sessions_opened w' = sessions_opened w
     /\ queries_sent w' = queries_sent w)
  /\ fst (convert_to_lightrag_format toJson str_of_object server w)
     = Raise Behaviour.no_session
  /\ queries_sent
       (snd (convert_to_lightrag_format toJson str_of_object server w))
     = queries_sent w.
Proof.
  intros Hd. split; [|split].
  - unfold _run_query, try_except, bind, gets, driver_session.
    rewrite Hd. cbn. eexists. repeat split.
  - unfold convert_to_lightrag_format, _run_query, try_except, bind, gets,
      driver_session, logger_info, modify.
    cbn. rewrite Hd. reflexivity.
  - unfold convert_to_lightrag_format, _run_query, try_except, bind, gets,
      driver_session, logger_info, modify.
    cbn. rewrite Hd. reflexivity.
Qed.

(** The world after a query on which the server fails. *)
Lemma run_query_fails_world (q : Query) params w e :
  Spec.connected w ->
  query_fault server (queries_sent w) = Some e ->
  exists w',
    _run_query server q params w = (Raise e, w')
    /\ log w' = log w ++ Behaviour.query_error_log e
    /\ queries_sent w' = S (queries_sent w)
    /\ self w' = self w
    /\ stdout w' = stdout w.
Proof.
  intros [d Hd] Hq.
  unfold _run_query, try_except, bind, gets, async_with, driver_session,
    session_run, session_exit, modify, ret, bind, gets.
  rewrite Hd. cbn. rewrite Hq. cbn.
  destruct e as [c msg]; destruct c; cbn; eexists;
    repeat split; now rewrite ?app_nil_r.
Qed.

(** X4.  A query on which the server fails raises the server's exception
    unchanged, after one record of the handler that caught it (none for an
    exception that is not an [Exception]); it counts as one query sent. *)
Theorem run_query_reraises_and_logs (q : Query) params w e :
  Spec.connected w ->
  query_fault server (queries_sent w) = Some e ->
  exists w',
    _run_query server q params w = (Raise e, w')
    /\ log w' = log w ++ Behaviour.query_error_log e
    /\ queries_sent w' = S (queries_sent w)
    /\ self w' = self w.
Proof.
  intros Hc Hq.
  destruct (run_query_fails_world q params Hc Hq)
    as (w' & E & Hl & Hs & Hself & _).
  exists w'. repeat split; assumption.
Qed.

(** X5.  Whatever the server does, every session the program opens is closed
    by the end of the program. *)
Theorem sessions_always_released w :
  Behaviour.sessions_balanced w
    (snd (main toJson str_of_object environ server w)).
Proof.
  revert w.
  change (Behaviour.respects Behaviour.sessions_balanced
            (main toJson str_of_object environ server)).
  unfold main, main_block, convert_to_lightrag_format, __init__, __aenter__,
    __aexit__, AsyncGraphDatabase_driver, verify_connectivity.
  respects sessions_balanced_refl sessions_balanced_trans
    ltac:(unfold Behaviour.sessions_balanced; cbn; lia);
    apply balanced_run_query.
Qed.

(** The number of queries a connected conversion sends. *)
Lemma convert_query_count w :
  Spec.connected w ->
  Spec.connected
    (snd (convert_to_lightrag_format toJson str_of_object server w))
  /\ queries_sent
       (snd (convert_to_lightrag_format toJson str_of_object server w))
     = queries_sent w
       + match query_fault server (queries_sent w) with
         | Some _ => 1
         | None => 2
         end.
Proof.
  intros [d Hd].
  split.
  { exists d.
    destruct (keeps_convert toJson str_of_object server w) as (K & _).
    now rewrite K. }
  unfold convert_to_lightrag_format, logger_info.
  rewrite !bind_log.
  destruct (query_fault server (queries_sent w)) as [e|] eqn:H0.
  - destruct (@run_query_fails_world (node_query toJson) None
                (add_log INFO "Fetching nodes from Neo4j..."
                   (add_log INFO
                      "Starting conversion from Neo4j to LightRAG format..."
                      w)) e (ex_intro _ d Hd) H0) as (w' & E & _ & Hs & _ & _).
    erewrite bind_raises by exact E. cbn [snd]. rewrite Hs. cbn. lia.
  - erewrite bind_returns
      by (apply run_query_ok with (d := d); [exact Hd | exact H0]).
    rewrite !bind_log.
    match goal with
    | |- context [bind (_run_query _ _ _) _ ?w1] => set (w2 := w1)
    end.
    assert (Hs2 : queries_sent w2 = S (queries_sent w)) by reflexivity.
    assert (Hd2 : _driver (self w2) = Some d) by exact Hd.
    destruct (query_fault server (queries_sent w2)) as [e|] eqn:H1.
    + destruct (@run_query_fails_world (relationship_query toJson) None
                  w2 e (ex_intro _ d Hd2) H1) as (w' & E & _ & Hs & _ & _).
      erewrite bind_raises by exact E. cbn [snd]. lia.
    + erewrite bind_returns
        by (apply run_query_ok with (d := d); [exact Hd2 | exact H1]).
      rewrite !bind_log. unfold lift, bind.
      destruct (comprehension _ _); cbn; lia.
Qed.

(** X6.  A connected conversion sends the node query, and the relationship
    query only when the node query was answered: one query when the first
    fails, two otherwise, never a retry. *)
Theorem conversion_sends_each_query_once w :
  Spec.connected w ->
  queries_sent (snd (convert_to_lightrag_format toJson str_of_object server w))
  = queries_sent w
    + match query_fault server (queries_sent w) with
      | Some _ => 1
      | None => 2
      end.
Proof.
  intros Hc. destruct (convert_query_count Hc) as [_ H]. exact H.
Qed.

(** *** Chunks of arbitrary rows *)

Lemma chunk_of_fields node id description :
  get node "source_id" = Some id ->
  get node "description" = Some (VStr description) ->
  chunk_of str_of_object node
  = Return
      [ ("chunk_id", VStr ("chunk_" ++ format str_of_object id));
        ("content", VStr description);
        ("source_id", id);
        ("tokens", VInt (Z.of_nat (Spec.whitespace_token_count description)));
        ("chunk_order_index", VInt 0) ].
Proof.
  intros Hi Hd. unfold chunk_of, getitem. rewrite Hi, Hd. cbn.
  unfold len. now rewrite split_length.
Qed.


(** X15.  Whatever the node query is changed to return, the comprehension
    builds one chunk per row, in order, as long as every row has a
    [source_id] and a [description] that is a [str]; a [source_id] that is
    not a [str] is printed into the [chunk_id]. *)
Theorem chunks_of_arbitrary_rows (rows : list row) :
  Forall Behaviour.has_chunk_fields rows ->
  exists chunks,
    comprehension (chunk_of str_of_object) rows = Return chunks
    /\ Forall2 (Behaviour.chunk_from_row str_of_object) rows chunks.
Proof.
  induction 1 as [|node rows (id & d & Hi & Hd) _ (chunks & E & IH)].
  - exists []. split; [reflexivity | constructor].
  - eexists. cbn [comprehension].
    rewrite (chunk_of_fields _ Hi Hd), E. cbn. split; [reflexivity|].
    constructor; [|exact IH]. exists id, d. repeat split; assumption.
Qed.


(** *** Names, types and identifiers of the rows *)

(** X10.  No entity is named by [null], and no relation has a [null] end point:
    the element identifier ends both fallback chains. *)
Theorem names_are_never_null (g : Cypher.Graph) :
  Forall
    (fun entity =>
       exists name, get entity "entity_name" = Some name /\ name <> VNull)
    (node_query toJson g)
  /\ Forall
       (fun relation =>
          exists src_id tgt_id,
            get relation "src_id" = Some src_id /\ src_id <> VNull
            /\ get relation "tgt_id" = Some tgt_id /\ tgt_id <> VNull)
       (relationship_query toJson g).
Proof.
  assert (H : forall n,
             Cypher.coalesce
               [ Cypher.prop (Cypher.node_properties n) "name";
                 Cypher.prop (Cypher.node_properties n) "title";
                 Cypher.elementId_node n ] <> VNull).
  { intros n. cbn.
    destruct (Cypher.prop _ "name"); cbn; try discriminate.
    destruct (Cypher.prop _ "title"); cbn; discriminate. }
  split; apply Forall_map_all.
  - intros n _. eexists. split; [reflexivity | apply H].
  - intros [[src r] tgt] _. eexists _, _.
    split; [reflexivity|]. split; [apply H|].
    split; [reflexivity | apply H].
Qed.

(** X12.  The type of an entity is the first label of its node, and [null] for a
    node without label; further labels are dropped. *)
Theorem entity_type_is_first_label (g : Cypher.Graph) :
  Forall2
    (fun n entity =>
       get entity "entity_type" = Some (Behaviour.first_label n))
    (Cypher.graph_nodes g) (node_query toJson g).
Proof.
  apply Forall2_map_right. intros n _.
  unfold Behaviour.first_label, Cypher.index, Cypher.labels. cbn.
  destruct (Cypher.node_labels n); reflexivity.
Qed.

Lemma NoDup_map_injective {A B} (f : A -> B) l :
  (forall x y, In x l -> In y l -> f x = f y -> x = y) ->
  NoDup l -> NoDup (map f l).
Proof.
  intros Hf Hl. induction Hl as [|x l Hx Hl IH]; cbn; constructor.
  - intros Hin. apply in_map_iff in Hin. destruct Hin as (y & E & Hy).
    apply Hx. rewrite (Hf x y); [exact Hy | now left | now right | now symmetry].
  - apply IH. intros a b Ha Hb. apply Hf; now right.
Qed.

(** X13.  When the element identifiers of the nodes are distinct, so are the
    [source_id]s of the entities and the [chunk_id]s of the chunks. *)
Theorem identifiers_stay_distinct w :
  Spec.connected w ->
  Spec.queries_answered server w ->
  NoDup (Behaviour.node_ids (graph server)) ->
  exists kg entities chunks,
    fst (convert_to_lightrag_format toJson str_of_object server w) = Return kg
    /\ get kg "entities" = Some entities
    /\ get kg "chunks" = Some chunks
    /\ NoDup (map (fun entity => get entity "source_id") entities)
    /\ NoDup (map (fun chunk => get chunk "chunk_id") chunks).
Proof.
  intros Hc Hq Hn. eexists _, _, _.
  split; [apply convert_ok; assumption|].
  split; [reflexivity|]. split; [reflexivity|].
  unfold node_query, Cypher.match_nodes, Behaviour.node_ids in *.
  rewrite !map_map. cbn.
  split.
  - rewrite <- (map_map Cypher.node_element_id (fun id => Some (VStr id))).
    apply NoDup_map_injective; [|exact Hn]. intros x y _ _ E. now inversion E.
  - rewrite <- (map_map Cypher.node_element_id
                  (fun id => Some (VStr ("chunk_" ++ id)))).
    apply NoDup_map_injective; [|exact Hn]. intros x y _ _ E. now inversion E.
Qed.

Lemma filter_absent_id (nodes : list Cypher.Node) id :
  ~ In id (map Cypher.node_element_id nodes) ->
  filter (fun n => String.eqb (Cypher.node_element_id n) id) nodes = [].
Proof.
  induction nodes as [|m nodes IH]; cbn; intros H; [reflexivity|].
  destruct (String.eqb_spec (Cypher.node_element_id m) id) as [E|E].
  - exfalso. apply H. now left.
  - apply IH. intros Hin. apply H. now right.
Qed.

Lemma filter_unique_id (nodes : list Cypher.Node) id :
  NoDup (map Cypher.node_element_id nodes) ->
  In id (map Cypher.node_element_id nodes) ->
  exists n,
    filter (fun n => String.eqb (Cypher.node_element_id n) id) nodes = [n].
Proof.
  induction nodes as [|m nodes IH]; cbn; intros Hn Hi; [contradiction|].
  inversion Hn as [|? ? Hm Hrest]; subst.
  destruct (String.eqb_spec (Cypher.node_element_id m) id) as [E|E].
  - exists m. f_equal. apply filter_absent_id. now rewrite <- E.
  - destruct Hi as [Hi|Hi]; [contradiction|]. now apply IH.
Qed.

Lemma node_with_id (g : Cypher.Graph) id :
  NoDup (Behaviour.node_ids g) ->
  In id (Behaviour.node_ids g) ->
  exists n,
    Cypher.nodes_with_id g id = [n]
    /\ In n (Cypher.graph_nodes g)
    /\ Cypher.node_element_id n = id.
Proof.
  intros Hn Hi. unfold Cypher.nodes_with_id.
  destruct (@filter_unique_id _ _ Hn Hi) as (n & E).
  exists n. split; [exact E|].
  assert (Hin : In n [n]) by now left.
  rewrite <- E in Hin. apply filter_In in Hin. destruct Hin as [Hin Heq].
  split; [exact Hin | now apply String.eqb_eq].
Qed.

(** X14.  In a graph whose node identifiers are distinct and whose relationships
    start and end at its nodes, the relationship query returns one row per
    relationship, in order; the row carries the relationship's type,
    properties and identifier, and its end points are named exactly as the
    entities of the start node and of the end node are. *)
Theorem one_relation_per_relationship (g : Cypher.Graph) :
  Behaviour.well_formed g ->
  Forall2 (Behaviour.relation_row toJson (node_query toJson g))
    (Cypher.graph_relationships g) (relationship_query toJson g).
Proof.
  intros [Hn Hr].
  unfold relationship_query, Cypher.match_relationships.
  revert Hr. generalize (Cypher.graph_relationships g) as rels.
  induction rels as [|r rels IH]; intros Hr; cbn [flat_map map].
  - constructor.
  - inversion Hr as [|? ? [Hs Ht] Hrest]; subst.
    destruct (@node_with_id _ _ Hn Hs) as (src & Es & Hsrc & Ids).
    destruct (@node_with_id _ _ Hn Ht) as (tgt & Et & Htgt & Idt).
    rewrite Es, Et. cbn [flat_map map app].
    constructor; [|now apply IH].
    unfold Behaviour.relation_row, Behaviour.names_entity_with_id,
      Behaviour.relation_of, node_query, Cypher.match_nodes.
    split; [|split].
    + eexists. split; [reflexivity|]. eexists.
      split; [apply in_map; exact Hsrc|]. rewrite <- Ids. split; reflexivity.
    + eexists. split; [reflexivity|]. eexists.
      split; [apply in_map; exact Htgt|]. rewrite <- Idt. split; reflexivity.
    + repeat split.
Qed.

(** *** Splitting at whitespace *)

Lemma split_scan_word (w t s : string) :
  Spec.has_space t = false ->
  split_scan w (t ++ s) = split_scan (w ++ t) s.
Proof.
  revert w. induction t as [|c t IH]; intros w Ht; cbn.
  - now rewrite append_empty_r.
  - cbn in Ht. apply orb_false_elim in Ht. destruct Ht as [Hc Ht].
    rewrite Hc, (IH _ Ht), append_snoc. reflexivity.
Qed.

Lemma split_blank_text s :
  Behaviour.all_space s = true -> split_scan EmptyString s = [].
Proof.
  induction s as [|c s IH]; cbn; [reflexivity|]. intros H.
  apply andb_prop in H. destruct H as [Hc Hs]. rewrite Hc. now apply IH.
Qed.

Lemma split_skips_space (ws s : string) :
  Behaviour.all_space ws = true ->
  split_scan EmptyString (ws ++ s) = split_scan EmptyString s.
Proof.
  induction ws as [|c ws IH]; cbn; [reflexivity|]. intros H.
  apply andb_prop in H. destruct H as [Hc Hs]. rewrite Hc. now apply IH.
Qed.

(** Whitespace in front of a text does not change its tokens. *)
Lemma splits_after_space c s ts :
  isspace c = true ->
  Behaviour.splits_into s ts -> Behaviour.splits_into (String c s) ts.
Proof.
  intros Hc H. destruct H as [s Hs | ws t rest ts Hws Ht Hr Hrest].
  - apply Behaviour.splits_blank. cbn. now rewrite Hc, Hs.
  - apply (@Behaviour.splits_token (String c ws) t rest ts);
      [cbn; now rewrite Hc, Hws | assumption | assumption | assumption].
Qed.

(** The scan, with or without a word in hand, yields the tokens. *)
Lemma split_scan_splits s :
  Behaviour.splits_into s (split_scan EmptyString s)
  /\ forall w : string,
      is_empty w = false -> Spec.has_space w = false ->
      Behaviour.splits_into (w ++ s) (split_scan w s).
Proof.
  induction s as [|c s [IH0 IHw]].
  - split.
    + now apply Behaviour.splits_blank.
    + intros w Hne Hsp. cbn. rewrite Hne.
      apply (@Behaviour.splits_token EmptyString w EmptyString []);
        [reflexivity | now split | now left | now apply Behaviour.splits_blank].
  - split.
    + cbn. destruct (isspace c) eqn:Hc.
      * now apply splits_after_space.
      * apply (IHw (String c EmptyString)); [reflexivity | cbn; now rewrite Hc].
    + intros w Hne Hsp. cbn [split_scan]. destruct (isspace c) eqn:Hc.
      * rewrite Hne.
        apply (@Behaviour.splits_token EmptyString w (String c s)
                 (split_scan EmptyString s));
          [reflexivity | now split | right; now exists c, s
          | now apply splits_after_space].
      * rewrite <- append_snoc. apply IHw.
        -- apply is_empty_snoc.
        -- rewrite has_space_snoc, Hsp, Hc. reflexivity.
Qed.

Lemma splits_into_unique s ts :
  Behaviour.splits_into s ts -> split s = ts.
Proof.
  unfold split.
  induction 1 as [s Hs | ws t rest ts Hws [Hne Hsp] Hr _ IH].
  - now apply split_blank_text.
  - rewrite (@split_skips_space _ _ Hws), (@split_scan_word _ _ _ Hsp).
    cbn [append]. destruct Hr as [-> | (c & r & -> & Hc)].
    + cbn in *. rewrite Hne. now subst ts.
    + cbn [split_scan] in *. rewrite Hc in *. rewrite Hne. cbn in IH.
      now rewrite IH.
Qed.

(** X17.  The words [split] returns are exactly the tokens of the text, its
    maximal runs of characters that are not whitespace, in order: the text
    is whitespace, the first word, whitespace, the second word, and so on,
    and no other list of words fits the text in this way.  In particular no
    word is empty, none holds whitespace, and together the words are the
    text without its whitespace. *)
Theorem split_returns_the_tokens (s : string) :
  Behaviour.splits_into s (split s)
  /\ (forall ts, Behaviour.splits_into s ts -> ts = split s)
  /\ Forall Spec.is_token (split s)
  /\ String.concat EmptyString (split s) = Spec.remove_spaces s.
Proof.
  split; [apply split_scan_splits|].
  split; [intros ts H; symmetry; now apply splits_into_unique|].
  split; [apply split_tokens | apply split_concat].
Qed.

(** X18.  Joining tokens by single spaces and splitting the result gives the
    tokens back. *)
Theorem split_after_join (tokens : list string) :
  Forall Spec.is_token tokens ->
  split (String.concat " " tokens) = tokens.
Proof.
  unfold split. induction 1 as [|t ts [Hne Hsp] Hts IH]; [reflexivity|].
  cbn [String.concat]. destruct ts as [|t' ts].
  - rewrite <- (append_empty_r t) at 1.
    rewrite (@split_scan_word _ _ _ Hsp). cbn. now rewrite Hne.
  - rewrite (@split_scan_word _ _ _ Hsp). cbn [append split_scan].
    replace (isspace " ") with true by reflexivity.
    cbn [append]. rewrite Hne, IH. reflexivity.
Qed.

(** *** The program as a whole *)

(** The world in which [main] enters the [async with] statement. *)
Lemma main_unfold w :
  main toJson str_of_object environ server w
  = async_with (__aenter__ server) __aexit__
      (main_block toJson str_of_object server)
      (set_self
         (fun _ =>
            mkConverter (NEO4J_URI environ) (NEO4J_USERNAME environ)
                        (NEO4J_PASSWORD environ) (NEO4J_DATABASE environ) None)
         (add_log INFO "--- Neo4j to LightRAG Converter ---" w)).
Proof. reflexivity. Qed.

Lemma aenter_ok_world w :
  Behaviour.connects server ->
  __aenter__ server w
  = (Return tt,
     add_log INFO ("Successfully connected to Neo4j at " ++ uri (self w))
       (set_self
          (set_driver
             (Some (mkDriver (uri (self w)) (user (self w), password (self w)))))
          (count_driver_created w))).
Proof.
  intros [Hd Hv].
  unfold __aenter__, try_except, bind, gets, AsyncGraphDatabase_driver,
    verify_connectivity.
  rewrite Hd, Hv. reflexivity.
Qed.

(** The exit method never raises. *)
Lemma aexit_world exc w :
  exists w',
    __aexit__ exc w = (Return tt, w')
    /\ stdout w' = stdout w
    /\ self w' = self w
    /\ queries_sent w' = queries_sent w
    /\ drivers_created w' = drivers_created w
    /\ drivers_closed w'
       = drivers_closed w
         + match _driver (self w) with Some _ => 1 | None => 0 end.
Proof.
  unfold __aexit__, bind, gets.
  destruct (_driver (self w)); cbn; eexists; repeat split; cbn; lia.
Qed.


(** After a conversion that returned, the rest of the block prints the
    summary and returns. *)
Lemma report_after_convert a w entities relations chunks w2 :
  convert_to_lightrag_format toJson str_of_object server w
  = (Return [("entities", entities); ("relations", relations);
             ("chunks", chunks)], w2) ->
  exists w3,
    main_block toJson str_of_object server a w = (Return tt, w3)
    /\ stdout w3
       = stdout w2 ++ Behaviour.summary str_of_object entities relations
    /\ self w3 = self w2
    /\ queries_sent w3 = queries_sent w2
    /\ drivers_created w3 = drivers_created w2
    /\ drivers_closed w3 = drivers_closed w2.
Proof.
  intros E. unfold main_block. erewrite bind_returns by exact E.
  unfold print, bind, modify, lift, getitem, get_default, ret.
  destruct entities as [|e1 es]; destruct relations as [|r1 rs]; cbn;
    eexists; (split; [reflexivity|]); cbn;
    repeat rewrite <- app_assoc; repeat split.
Qed.

(** X19.  When the connection is made and both queries are answered, [main]
    returns and has printed the summary of the conversion: the header, the
    numbers of entities and relations, and the first entity and the first
    relation when there is one; on an empty database the three lines of
    the count are all it prints. *)
Theorem main_reports_the_conversion w :
  Behaviour.connects server ->
  Spec.queries_answered server w ->
  fst (main toJson str_of_object environ server w) = Return tt
  /\ stdout (snd (main toJson str_of_object environ server w))
     = stdout w
       ++ Behaviour.summary str_of_object
            (node_query toJson (graph server))
            (relationship_query toJson (graph server)).
Proof.
  intros Hc Hq. rewrite main_unfold. unfold async_with.
  rewrite (@aenter_ok_world _ Hc).
  match goal with
  | |- context [main_block _ _ _ tt ?w] => set (w1 := w)
  end.
  assert (Hconn : Spec.connected w1) by (eexists; reflexivity).
  assert (Hq1 : Spec.queries_answered server w1) by exact Hq.
  pose proof (@convert_ok toJson str_of_object server w1 Hconn Hq1) as Hr.
  pose proof (quiet_convert w1) as Hs.
  destruct (convert_to_lightrag_format toJson str_of_object server w1)
    as [r w2] eqn:Ec.
  cbn [fst snd] in Hr, Hs. subst r.
  destruct (@report_after_convert tt _ _ _ _ _ Ec) as (w3 & Eb & Hout & _).
  rewrite Eb.
  destruct (aexit_world None w3) as (w4 & Ex & Hout4 & _).
  rewrite Ex. cbn [fst snd]. split; [reflexivity|].
  rewrite Hout4, Hout, Hs. reflexivity.
Qed.


Lemma convert_raises w e :
  Spec.connected w ->
  Spec.a_query_fails server w e ->
  exists w',
    convert_to_lightrag_format toJson str_of_object server w = (Raise e, w').
Proof.
  intros Hc Hf. pose proof Hc as [d Hd].
  unfold convert_to_lightrag_format, logger_info. rewrite !bind_log.
  destruct Hf as [H0 | [H0 H1]].
  - match goal with
    | |- context [bind (_run_query _ _ _) _ ?w1] =>
        destruct (@run_query_fails_world (node_query toJson) None w1 e
                    (ex_intro _ d Hd) H0) as (w' & E & _)
    end.
    erewrite bind_raises by exact E. eexists. reflexivity.
  - erewrite bind_returns
      by (apply run_query_ok with (d := d); [exact Hd | exact H0]).
    rewrite !bind_log.
    match goal with
    | |- context [bind (_run_query _ _ _) _ ?w1] =>
        destruct (@run_query_fails_world (relationship_query toJson) None w1 e
                    (ex_intro _ d Hd) H1) as (w' & E & _)
    end.
    erewrite bind_raises by exact E. eexists. reflexivity.
Qed.

(** X21.  When the connection is made and one of the two queries fails, [main]
    ends with the exception of the server, unchanged, after closing the
    driver it created. *)
Theorem main_propagates_query_failure w e :
  Behaviour.connects server ->
  Spec.a_query_fails server w e ->
  fst (main toJson str_of_object environ server w) = Raise e
  /\ drivers_created (snd (main toJson str_of_object environ server w))
     = S (drivers_created w)
  /\ drivers_closed (snd (main toJson str_of_object environ server w))
     = S (drivers_closed w).
Proof.
  intros Hc Hf. rewrite main_unfold. unfold async_with.
  rewrite (@aenter_ok_world _ Hc).
  match goal with
  | |- context [main_block _ _ _ tt ?w] => set (w1 := w)
  end.
  assert (Hconn : Spec.connected w1) by (eexists; reflexivity).
  assert (Hf1 : Spec.a_query_fails server w1 e) by exact Hf.
  destruct (convert_raises Hconn Hf1) as (w2 & Ec).
  destruct (keeps_convert toJson str_of_object server w1) as (K1 & K2 & K3).
  rewrite Ec in K1, K2, K3. cbn [snd] in K1, K2, K3.
  unfold main_block. erewrite bind_raises by exact Ec.
  destruct (aexit_world (Some e) w2) as (w3 & Ex & _ & _ & _ & C1 & C2).
  rewrite Ex. cbn [fst snd]. rewrite K1 in C2. cbn in C2.
  split; [reflexivity|]. split; [rewrite C1, K2; reflexivity|].
  rewrite C2, K3. cbn. lia.
Qed.

(** X20.  When the connection is made and one of the two queries fails,
    [main] has printed nothing: the summary is printed only after the whole
    conversion returned. *)
Theorem query_failure_prints_nothing w e :
  Behaviour.connects server ->
  Spec.a_query_fails server w e ->
  stdout (snd (main toJson str_of_object environ server w)) = stdout w.
Proof.
  intros Hc Hf. rewrite main_unfold. unfold async_with.
  rewrite (@aenter_ok_world _ Hc).
  match goal with
  | |- context [main_block _ _ _ tt ?w] => set (w1 := w)
  end.
  assert (Hconn : Spec.connected w1) by (eexists; reflexivity).
  assert (Hf1 : Spec.a_query_fails server w1 e) by exact Hf.
  destruct (convert_raises Hconn Hf1) as (w2 & Ec).
  pose proof (quiet_convert w1) as Hs. rewrite Ec in Hs. cbn [snd] in Hs.
  unfold main_block. erewrite bind_raises by exact Ec.
  destruct (aexit_world (Some e) w2) as (w3 & Ex & Hs3 & _).
  rewrite Ex. cbn [snd]. rewrite Hs3, Hs. reflexivity.
Qed.

(** X2.  When creating the driver or verifying the connection raises, [main]
    ends with that exception without entering the block: no query is sent,
    nothing is printed and close is not run, also for the driver that was
    created before the verification failed. *)
Theorem connection_failure_ends_main w e :
  Behaviour.connecting_fails server e ->
  fst (main toJson str_of_object environ server w) = Raise e
  /\ queries_sent (snd (main toJson str_of_object environ server w))
     = queries_sent w
  /\ stdout (snd (main toJson str_of_object environ server w)) = stdout w
  /\ drivers_closed (snd (main toJson str_of_object environ server w))
     = drivers_closed w
  /\ drivers_created (snd (main toJson str_of_object environ server w))
     = drivers_created w
       + match driver_outcome server with None => 1 | Some _ => 0 end.
Proof.
  intros Hf. rewrite main_unfold.
  match goal with
  | |- context [async_with _ _ _ ?w] => set (w0 := w)
  end.
  destruct (aenter_fails_world w0 Hf) as (w1 & E & _ & Hs & Hq & Hc & Hn).
  erewrite async_with_not_entered by exact E. cbn [fst snd].
  split; [reflexivity|]. split; [exact Hq|]. split; [exact Hs|].
  split; [exact Hc | exact Hn].
Qed.


Lemma settled_run_query q params :
  Behaviour.respects Behaviour.same_settings (_run_query server q params).
Proof.
  unfold _run_query, driver_session, session_run. settled.
Qed.

(** X22.  Whatever happens afterwards, the converter [main] builds has the
    settings of the environment, each with its default when the variable
    is not set. *)
Theorem main_configures_from_environment w :
  let c := self (snd (main toJson str_of_object environ server w)) in
  uri c = get_default environ "NEO4J_URI" "bolt://localhost:7687"
  /\ user c = get_default environ "NEO4J_USERNAME" "neo4j"
  /\ password c = get_default environ "NEO4J_PASSWORD" "password"
  /\ database c = get_default environ "NEO4J_DATABASE" "neo4j".
Proof.
  rewrite main_unfold.
  match goal with
  | |- context [async_with _ _ _ ?w] => set (w0 := w)
  end.
  assert (H : Behaviour.respects Behaviour.same_settings
                (async_with (__aenter__ server) __aexit__
                   (main_block toJson str_of_object server))).
  { unfold main_block, convert_to_lightrag_format, __aenter__, __aexit__,
      AsyncGraphDatabase_driver, verify_connectivity.
    settled; apply settled_run_query. }
  destruct (H w0) as (H1 & H2 & H3 & H4).
  cbv zeta. rewrite H1, H2, H3, H4. repeat split.
Qed.

(** X9.  A second conversion in the same connection returns what the first
    returned, when the four queries are answered. *)
Theorem conversion_is_repeatable w :
  Spec.connected w ->
  Behaviour.four_queries_answered server w ->
  fst (convert_to_lightrag_format toJson str_of_object server
         (snd (convert_to_lightrag_format toJson str_of_object server w)))
  = fst (convert_to_lightrag_format toJson str_of_object server w).
Proof.
  intros Hc (H0 & H1 & H2 & H3).
  destruct (convert_query_count Hc) as [Hc' Hn]. rewrite H0 in Hn.
  rewrite (@convert_ok toJson str_of_object server w Hc (conj H0 H1)).
  apply convert_ok; [exact Hc'|].
  unfold Spec.queries_answered. rewrite Hn.
  replace (queries_sent w + 2) with (S (S (queries_sent w))) by lia.
  split; assumption.
Qed.

(** X8.  A conversion whose queries are answered logs six records, all of
    level [INFO], with the numbers of rows found; it logs no error. *)
Theorem conversion_log_on_success w :
  Spec.connected w ->
  Spec.queries_answered server w ->
  log (snd (convert_to_lightrag_format toJson str_of_object server w))
  = log w
    ++ Behaviour.success_log str_of_object
         (node_query toJson (graph server))
         (relationship_query toJson (graph server)).
Proof.
  intros [d Hd] [H0 H1].
  unfold convert_to_lightrag_format, logger_info.
  rewrite !bind_log.
  erewrite bind_returns
    by (apply run_query_ok with (d := d); [exact Hd | exact H0]).
  rewrite !bind_log.
  erewrite bind_returns
    by (apply run_query_ok with (d := d); [exact Hd | exact H1]).
  rewrite !bind_log.
  unfold lift.
  erewrite bind_returns by (rewrite chunks_of_node_rows; reflexivity).
  rewrite bind_log. cbn [snd ret log add_log Spec.after_query
    count_session_closed count_query count_session_opened].
  unfold Behaviour.success_log, len, format.
  repeat rewrite <- app_assoc. reflexivity.
Qed.

Lemma balanced_convert :
  Behaviour.respects Behaviour.sessions_balanced
    (convert_to_lightrag_format toJson str_of_object server).
Proof.
  unfold convert_to_lightrag_format.
  respects sessions_balanced_refl sessions_balanced_trans
    ltac:(unfold Behaviour.sessions_balanced; cbn; lia);
    apply balanced_run_query.
Qed.

(** X7.  Whatever the state of the connection and whatever the server does, a
    conversion prints nothing, leaves the converter object as it is,
    creates and closes no driver, and closes every session it opens. *)
Theorem conversion_only_reads w :
  let w' := snd (convert_to_lightrag_format toJson str_of_object server w) in
  stdout w' = stdout w
  /\ self w' = self w
  /\ drivers_created w' = drivers_created w
  /\ drivers_closed w' = drivers_closed w
  /\ Behaviour.sessions_balanced w w'.
Proof.
  cbv zeta.
  destruct (keeps_convert toJson str_of_object server w) as (K1 & K2 & K3).
  split; [apply quiet_convert|].
  split; [exact K1|]. split; [exact K2|]. split; [exact K3|].
  apply balanced_convert.
Qed.

(** X11.  Names are not identifiers: two nodes with the same [name] property
    get the same [entity_name], whatever their element identifiers. *)
Theorem equal_names_collide (g : Cypher.Graph) n1 n2 :
  In n1 (Cypher.graph_nodes g) ->
  In n2 (Cypher.graph_nodes g) ->
  Cypher.prop (Cypher.node_properties n1) "name" <> VNull ->
  Cypher.prop (Cypher.node_properties n1) "name"
  = Cypher.prop (Cypher.node_properties n2) "name" ->
  exists name,
    Behaviour.entity_named (node_query toJson g) n1 name
    /\ Behaviour.entity_named (node_query toJson g) n2 name.
Proof.
  intros H1 H2 Hn E.
  exists (Cypher.prop (Cypher.node_properties n1) "name").
  unfold Behaviour.entity_named, Behaviour.names_entity_with_id, node_query,
    Cypher.match_nodes.
  split.
  - eexists. split; [apply in_map; exact H1|]. split; [reflexivity|].
    cbn. destruct (Cypher.prop (Cypher.node_properties n1) "name");
      cbn; congruence.
  - eexists. split; [apply in_map; exact H2|]. split; [reflexivity|].
    cbn. rewrite <- E.
    destruct (Cypher.prop (Cypher.node_properties n1) "name");
      cbn; congruence.
Qed.

End Behaviours.

(** ** The further behaviour on concrete inputs *)

Section BehaviourInstances.

Local Abbreviation convert_sample :=
  (convert_to_lightrag_format Sample.toJson Sample.str_of_object).
Local Abbreviation main_sample :=
  (main Sample.toJson Sample.str_of_object []).
Local Abbreviation script_sample :=
  (script Sample.toJson Sample.str_of_object []).

Lemma password_rejected :
  Behaviour.connecting_fails Sample.server_rejecting_password
    Sample.bad_password.
Proof. right. split; reflexivity. Qed.

Lemma library_connects : Behaviour.connects (Sample.server_on Sample.library).
Proof. split; reflexivity. Qed.

Lemma library_well_formed : Behaviour.well_formed Sample.library.
Proof.
  split.
  - repeat constructor; cbn; intuition discriminate.
  - repeat constructor; cbn; tauto.
Qed.

(** Wrong credentials: the handler for [AuthError] logs, the exception goes
    on. *)
Lemma aenter_reraises_witness :
  Behaviour.connecting_fails Sample.server_rejecting_password
    Sample.bad_password
  /\ exists w',
      __aenter__ Sample.server_rejecting_password Sample.world0
      = (Raise Sample.bad_password, w')
      /\ log w'
         = log Sample.world0
           ++ Behaviour.connection_error_log Sample.bad_password
      /\ stdout w' = stdout Sample.world0
      /\ queries_sent w' = queries_sent Sample.world0
      /\ drivers_closed w' = drivers_closed Sample.world0.
Proof.
  split; [exact password_rejected|].
  exact (@aenter_reraises Sample.server_rejecting_password Sample.world0
           Sample.bad_password password_rejected).
Defined.

(** A query on a converter that was never entered. *)
Lemma run_query_without_driver_witness :
  _driver (self Sample.world0) = None
  /\ (exists w',
        _run_query (Sample.server_on Sample.library)
          (node_query Sample.toJson) None Sample.world0
        = (Raise Behaviour.no_session, w')
        /\ log w'
           = log Sample.world0
             ++ Behaviour.query_error_log Behaviour.no_session
        /\ sessions_opened w' = sessions_opened Sample.world0
        /\ queries_sent w' = queries_sent Sample.world0)
  /\ fst (convert_sample (Sample.server_on Sample.library) Sample.world0)
     = Raise Behaviour.no_session
  /\ queries_sent
       (snd (convert_sample (Sample.server_on Sample.library) Sample.world0))
     = queries_sent Sample.world0.
Proof.
  split; [reflexivity|].
  exact (@run_query_without_driver Sample.toJson Sample.str_of_object
           (Sample.server_on Sample.library) (node_query Sample.toJson) None
           Sample.world0 eq_refl).
Defined.

(** The server rejects the text of the first query. *)
Lemma run_query_reraises_and_logs_witness :
  let syntax_error := mkExn CypherSyntaxError "Invalid input" in
  let server :=
    mkServer None None Sample.library
             (fun k => match k with 0 => Some syntax_error | _ => None end) in
  Spec.connected Sample.world_connected
  /\ query_fault server (queries_sent Sample.world_connected)
     = Some syntax_error
  /\ exists w',
      _run_query server (node_query Sample.toJson) None Sample.world_connected
      = (Raise syntax_error, w')
      /\ log w'
         = log Sample.world_connected ++ Behaviour.query_error_log syntax_error
      /\ queries_sent w' = S (queries_sent Sample.world_connected)
      /\ self w' = self Sample.world_connected.
Proof.
  split; [exact sample_connected|]. split; [reflexivity|].
  exact (@run_query_reraises_and_logs
           (mkServer None None Sample.library
              (fun k =>
                 match k with
                 | 0 => Some (mkExn CypherSyntaxError "Invalid input")
                 | _ => None
                 end))
           (node_query Sample.toJson) None Sample.world_connected
           (mkExn CypherSyntaxError "Invalid input") sample_connected eq_refl).
Defined.

Lemma conversion_sends_each_query_once_witness :
  Spec.connected Sample.world_connected
  /\ queries_sent
       (snd (convert_sample (Sample.server_on Sample.library)
               Sample.world_connected))
     = queries_sent Sample.world_connected
       + match
           query_fault (Sample.server_on Sample.library)
             (queries_sent Sample.world_connected)
         with
         | Some _ => 1
         | None => 2
         end.
Proof.
  split; [exact sample_connected|].
  exact (@conversion_sends_each_query_once Sample.toJson Sample.str_of_object
           (Sample.server_on Sample.library) Sample.world_connected
           sample_connected).
Defined.

(** Rows of a customised node query: a numeric [source_id], and a further
    column. *)
Lemma chunks_of_arbitrary_rows_witness :
  let rows : list row :=
    [ [("source_id", VInt 7); ("description", VStr "a b  c")];
      [("description", VStr ""); ("rank", VInt 1); ("source_id", VStr "n2")] ]
  in
  Forall Behaviour.has_chunk_fields rows
  /\ exists chunks,
      comprehension (chunk_of Sample.str_of_object) rows = Return chunks
      /\ Forall2 (Behaviour.chunk_from_row Sample.str_of_object) rows chunks.
Proof.
  assert (H : Forall Behaviour.has_chunk_fields
                [ [("source_id", VInt 7); ("description", VStr "a b  c")];
                  [("description", VStr ""); ("rank", VInt 1);
                   ("source_id", VStr "n2")] ]).
  { repeat constructor; eexists _, _; split; reflexivity. }
  split; [exact H|].
  exact (@chunks_of_arbitrary_rows Sample.str_of_object _ H).
Defined.


Lemma identifiers_stay_distinct_witness :
  Spec.connected Sample.world_connected
  /\ Spec.queries_answered (Sample.server_on Sample.library)
       Sample.world_connected
  /\ NoDup (Behaviour.node_ids Sample.library)
  /\ exists kg entities chunks,
      fst (convert_sample (Sample.server_on Sample.library)
             Sample.world_connected) = Return kg
      /\ get kg "entities" = Some entities
      /\ get kg "chunks" = Some chunks
      /\ NoDup (map (fun entity => get entity "source_id") entities)
      /\ NoDup (map (fun chunk => get chunk "chunk_id") chunks).
Proof.
  split; [exact sample_connected|].
  split; [exact (sample_answered Sample.library)|].
  split; [exact (proj1 library_well_formed)|].
  exact (@identifiers_stay_distinct Sample.toJson Sample.str_of_object
           (Sample.server_on Sample.library) Sample.world_connected
           sample_connected (sample_answered Sample.library)
           (proj1 library_well_formed)).
Defined.

Lemma one_relation_per_relationship_witness :
  Behaviour.well_formed Sample.library
  /\ Forall2
       (Behaviour.relation_row Sample.toJson
          (node_query Sample.toJson Sample.library))
       (Cypher.graph_relationships Sample.library)
       (relationship_query Sample.toJson Sample.library).
Proof.
  split; [exact library_well_formed|].
  exact (@one_relation_per_relationship Sample.toJson Sample.library
           library_well_formed).
Defined.

Lemma split_after_join_witness :
  Forall Spec.is_token ["a"; "b"; "c"]
  /\ split (String.concat " " ["a"; "b"; "c"]) = ["a"; "b"; "c"].
Proof.
  assert (H : Forall Spec.is_token ["a"; "b"; "c"])
    by (repeat constructor).
  split; [exact H|]. exact (@split_after_join ["a"; "b"; "c"] H).
Defined.

Lemma main_reports_the_conversion_witness :
  Behaviour.connects (Sample.server_on Sample.library)
  /\ Spec.queries_answered (Sample.server_on Sample.library) Sample.world0
  /\ fst (main_sample (Sample.server_on Sample.library) Sample.world0)
     = Return tt
  /\ stdout (snd (main_sample (Sample.server_on Sample.library) Sample.world0))
     = stdout Sample.world0
       ++ Behaviour.summary Sample.str_of_object
            (node_query Sample.toJson Sample.library)
            (relationship_query Sample.toJson Sample.library).
Proof.
  assert (Hq : Spec.queries_answered (Sample.server_on Sample.library)
                 Sample.world0) by (split; reflexivity).
  split; [exact library_connects|]. split; [exact Hq|].
  exact (@main_reports_the_conversion Sample.toJson Sample.str_of_object []
           (Sample.server_on Sample.library) Sample.world0
           library_connects Hq).
Defined.

(** The relationship query times out. *)
Lemma query_failure_prints_nothing_witness :
  let server := mkServer None None Sample.library Sample.second_fails in
  Behaviour.connects server
  /\ Spec.a_query_fails server Sample.world0 Sample.timed_out
  /\ stdout (snd (main_sample server Sample.world0)) = stdout Sample.world0.
Proof.
  assert (Hc : Behaviour.connects
                 (mkServer None None Sample.library Sample.second_fails))
    by (split; reflexivity).
  assert (Hf : Spec.a_query_fails
                 (mkServer None None Sample.library Sample.second_fails)
                 Sample.world0 Sample.timed_out)
    by (right; split; reflexivity).
  split; [exact Hc|]. split; [exact Hf|].
  exact (@query_failure_prints_nothing Sample.toJson Sample.str_of_object []
           (mkServer None None Sample.library Sample.second_fails)
           Sample.world0 Sample.timed_out Hc Hf).
Defined.

Lemma main_propagates_query_failure_witness :
  let server := mkServer None None Sample.library Sample.second_fails in
  Behaviour.connects server
  /\ Spec.a_query_fails server Sample.world0 Sample.timed_out
  /\ fst (main_sample server Sample.world0) = Raise Sample.timed_out
  /\ drivers_created (snd (main_sample server Sample.world0))
     = S (drivers_created Sample.world0)
  /\ drivers_closed (snd (main_sample server Sample.world0))
     = S (drivers_closed Sample.world0).
Proof.
  assert (Hc : Behaviour.connects
                 (mkServer None None Sample.library Sample.second_fails))
    by (split; reflexivity).
  assert (Hf : Spec.a_query_fails
                 (mkServer None None Sample.library Sample.second_fails)
                 Sample.world0 Sample.timed_out)
    by (right; split; reflexivity).
  split; [exact Hc|]. split; [exact Hf|].
  exact (@main_propagates_query_failure Sample.toJson Sample.str_of_object []
           (mkServer None None Sample.library Sample.second_fails)
           Sample.world0 Sample.timed_out Hc Hf).
Defined.

Lemma connection_failure_ends_main_witness :
  Behaviour.connecting_fails Sample.server_rejecting_password
    Sample.bad_password
  /\ fst (main_sample Sample.server_rejecting_password Sample.world0)
     = Raise Sample.bad_password
  /\ queries_sent
       (snd (main_sample Sample.server_rejecting_password Sample.world0))
     = queries_sent Sample.world0
  /\ stdout (snd (main_sample Sample.server_rejecting_password Sample.world0))
     = stdout Sample.world0
  /\ drivers_closed
       (snd (main_sample Sample.server_rejecting_password Sample.world0))
     = drivers_closed Sample.world0
  /\ drivers_created
       (snd (main_sample Sample.server_rejecting_password Sample.world0))
     = drivers_created Sample.world0
       + match driver_outcome Sample.server_rejecting_password with
         | None => 1
         | Some _ => 0
         end.
Proof.
  split; [exact password_rejected|].
  exact (@connection_failure_ends_main Sample.toJson Sample.str_of_object []
           Sample.server_rejecting_password Sample.world0 Sample.bad_password
           password_rejected).
Defined.


Lemma conversion_is_repeatable_witness :
  Spec.connected Sample.world_connected
  /\ Behaviour.four_queries_answered (Sample.server_on Sample.library)
       Sample.world_connected
  /\ fst (convert_sample (Sample.server_on Sample.library)
            (snd (convert_sample (Sample.server_on Sample.library)
                    Sample.world_connected)))
     = fst (convert_sample (Sample.server_on Sample.library)
              Sample.world_connected).
Proof.
  assert (H : Behaviour.four_queries_answered
                (Sample.server_on Sample.library) Sample.world_connected)
    by (repeat split).
  split; [exact sample_connected|]. split; [exact H|].
  exact (@conversion_is_repeatable Sample.toJson Sample.str_of_object
           (Sample.server_on Sample.library) Sample.world_connected
           sample_connected H).
Defined.

Lemma conversion_log_on_success_witness :
  Spec.connected Sample.world_connected
  /\ Spec.queries_answered (Sample.server_on Sample.library)
       Sample.world_connected
  /\ log (snd (convert_sample (Sample.server_on Sample.library)
                 Sample.world_connected))
     = log Sample.world_connected
       ++ Behaviour.success_log Sample.str_of_object
            (node_query Sample.toJson Sample.library)
            (relationship_query Sample.toJson Sample.library).
Proof.
  split; [exact sample_connected|].
  split; [exact (sample_answered Sample.library)|].
  exact (@conversion_log_on_success Sample.toJson Sample.str_of_object
           (Sample.server_on Sample.library) Sample.world_connected
           sample_connected (sample_answered Sample.library)).
Defined.

(** Two persons called Alice. *)
Lemma equal_names_collide_witness :
  let other :=
    Cypher.mkNode "4:db:9" ["Person"] [("name", VStr "Alice")] in
  let g := Cypher.mkGraph [Sample.alice; other] [] in
  In Sample.alice (Cypher.graph_nodes g)
  /\ In other (Cypher.graph_nodes g)
  /\ Cypher.prop (Cypher.node_properties Sample.alice) "name" <> VNull
  /\ Cypher.prop (Cypher.node_properties Sample.alice) "name"
     = Cypher.prop (Cypher.node_properties other) "name"
  /\ exists name,
      Behaviour.entity_named (node_query Sample.toJson g) Sample.alice name
      /\ Behaviour.entity_named (node_query Sample.toJson g) other name.
Proof.
  assert (H1 : In Sample.alice
                 [Sample.alice;
                  Cypher.mkNode "4:db:9" ["Person"] [("name", VStr "Alice")]])
    by (left; reflexivity).
  assert (H2 : In (Cypher.mkNode "4:db:9" ["Person"] [("name", VStr "Alice")])
                 [Sample.alice;
                  Cypher.mkNode "4:db:9" ["Person"] [("name", VStr "Alice")]])
    by (right; left; reflexivity).
  assert (Hn : Cypher.prop (Cypher.node_properties Sample.alice) "name"
               <> VNull) by (cbn; discriminate).
  split; [exact H1|]. split; [exact H2|]. split; [exact Hn|].
  split; [reflexivity|].
  exact (@equal_names_collide Sample.toJson
           (Cypher.mkGraph
              [Sample.alice;
               Cypher.mkNode "4:db:9" ["Person"] [("name", VStr "Alice")]] [])
           Sample.alice
           (Cypher.mkNode "4:db:9" ["Person"] [("name", VStr "Alice")])
           H1 H2 Hn eq_refl).
Defined.

End BehaviourInstances.
